(** * Verbosity: the level registry, its mutation guard, the message
      dispatcher and the [printer] decorator of [verbosity.py]

    The Python module keeps all of its state in class attributes of
    [Verbosity] (guarded by the metaclass [VerbosityMeta]) and in the
    closure of each decorator.  The embedding below threads that state
    explicitly through a small state-and-exception monad and follows the
    source statement by statement.

    The class is used as it is ([cls] is always [Verbosity]; there are no
    subclasses and no instances), the registry list and table are reached
    only through the class, and every sink is a text stream. *)

From Stdlib Require Import ZArith String Ascii List Bool.
From stdpp Require Import base gmap strings list fin_maps pretty.

Open Scope string_scope.
Open Scope Z_scope.

(** ** Python values *)

(** The exception classes the module raises or catches.
    [KeyboardInterrupt] stands for the classes that derive from
    [BaseException] but not from [Exception]. *)
Inductive exn_kind :=
  | ValueError | TypeError | AttributeError | KeyError | IndexError
  | KeyboardInterrupt.

(** An exception object: its class and the text it was built with.  The
    text of exceptions raised by the interpreter itself is not modelled
    ([None]). *)
Record exn := Exn { exn_class : exn_kind; exn_text : option string }.

(** First-order Python objects.  [VObj] is an object of any other type
    (not [str], [int], [bool], [NoneType], not callable, not a tuple) with
    the default identity equality. *)
Inductive pyval :=
  | VNone
  | VBool (b : bool)
  | VInt (z : Z)
  | VStr (s : string)
  | VExn (e : exn)
  | VObj (id : nat).

#[global] Instance exn_kind_eq_dec : EqDecision exn_kind.
Proof. solve_decision. Defined.
#[global] Instance exn_eq_dec : EqDecision exn.
Proof. solve_decision. Defined.
#[global] Instance pyval_eq_dec : EqDecision pyval.
Proof. solve_decision. Defined.

(** [isinstance(v, int)]: [bool] is a subclass of [int]. *)
Definition as_int (v : pyval) : option Z :=
  match v with
  | VInt z => Some z
  | VBool b => Some (if b then 1 else 0)
  | _ => None
  end.

Definition is_int (v : pyval) : bool :=
  match as_int v with Some _ => true | None => false end.

(** [isinstance(v, bool)], [v is None], [v is True], [v is False]. *)
Definition is_bool (v : pyval) : bool :=
  match v with VBool _ => true | _ => false end.
Definition is_None (v : pyval) : bool :=
  match v with VNone => true | _ => false end.
Definition is_True (v : pyval) : bool :=
  match v with VBool true => true | _ => false end.
Definition is_False (v : pyval) : bool :=
  match v with VBool false => true | _ => false end.

(** [a == b].  Integers and booleans compare by number; an exception
    object is identified with its class and text. *)
Definition py_eq (a b : pyval) : bool :=
  match as_int a, as_int b with
  | Some x, Some y => x =? y
  | None, None => bool_decide (a = b)
  | _, _ => false
  end.

(** [repr(type(v))], as the [TypeError] texts of the module embed it. *)
Definition exn_kind_name (k : exn_kind) : string :=
  match k with
  | ValueError => "ValueError" | TypeError => "TypeError"
  | AttributeError => "AttributeError" | KeyError => "KeyError"
  | IndexError => "IndexError" | KeyboardInterrupt => "KeyboardInterrupt"
  end.

Definition type_repr (v : pyval) : option string :=
  match v with
  | VNone => Some "<class 'NoneType'>"
  | VBool _ => Some "<class 'bool'>"
  | VInt _ => Some "<class 'int'>"
  | VStr _ => Some "<class 'str'>"
  | VExn e => Some ("<class '" +:+ exn_kind_name (exn_class e) +:+ "'>")
  | VObj _ => None
  end.

(** Keys of [_verbositiesmap]: level names and level values.  [True] and
    [1] hash and compare alike, so a boolean key is its number. *)
Inductive pykey := KStr (s : string) | KInt (z : Z).

#[global] Instance pykey_eq_dec : EqDecision pykey.
Proof. solve_decision. Defined.

#[global] Instance pykey_countable : Countable pykey.
Proof.
  refine (inj_countable'
    (λ k, match k with KStr s => inl s | KInt z => inr z end)
    (λ x, match x with inl s => KStr s | inr z => KInt z end) _).
  by intros [].
Defined.

Definition to_key (v : pyval) : option pykey :=
  match v with
  | VStr s => Some (KStr s)
  | _ => KInt <$> as_int v
  end.

(** ** The state of the process *)

(** What a name of the class namespace [Verbosity.__dict__] is bound to:
    a plain value, the list or the dictionary of the registry (mutable
    objects, updated in place), or the object the class body bound to
    that name at the start (a method, the inner class, the [PARAMETERS]
    marker). *)
Inductive nsval :=
  | NVal (v : pyval)
  | NList (l : list pyval)
  | NDict (d : gmap pykey pyval)
  | NOrig.

(** One call on an output sink.  Sinks are text streams named by a number;
    [stdout] is [sys.stdout]. *)
Inductive sink_event :=
  | SinkWrite (sink : nat) (text : string)
  | SinkFlush (sink : nat).

Definition stdout : nat := 0%nat.

(** - [_is_internal_op]: the attribute of the metaclass [VerbosityMeta];
    - [ns]: the namespace of the class [Verbosity];
    - [cells]: the closure cells of the [rethrow] variables, one for each
      call of [printer] (the wrapper assigns to it through [nonlocal]);
    - [sinks]: every write and flush performed so far, oldest first. *)
Record state := State {
  _is_internal_op : bool;
  ns : gmap string nsval;
  cells : list pyval;
  sinks : list sink_event
}.

Definition set_internal_op (g : bool) (s : state) : state :=
  State g (ns s) (cells s) (sinks s).
Definition set_ns (n : gmap string nsval) (s : state) : state :=
  State (_is_internal_op s) n (cells s) (sinks s).
Definition set_cells (c : list pyval) (s : state) : state :=
  State (_is_internal_op s) (ns s) c (sinks s).
Definition set_sinks (o : list sink_event) (s : state) : state :=
  State (_is_internal_op s) (ns s) (cells s) o.

(** ** The monad: state, exceptions, and the edge of the model *)

(** [Unmodelled] marks a run that leaves the modelled fragment of Python
    (a format field with a name or a format specification, the special
    double-underscore attributes of a class, ...).  Nothing catches it. *)
Inductive result (A : Type) :=
  | Ret (a : A)
  | Raise (e : exn)
  | Unmodelled.
Arguments Ret {A} a.
Arguments Raise {A} e.
Arguments Unmodelled {A}.

Definition M (A : Type) : Type := state → result A * state.

#[global] Instance M_ret : MRet M := λ A a s, (Ret a, s).

#[global] Instance M_bind : MBind M := λ A B f m s,
  match m s with
  | (Ret a, s') => f a s'
  | (Raise e, s') => (Raise e, s')
  | (Unmodelled, s') => (Unmodelled, s')
  end.

Definition raise {A} (k : exn_kind) (text : option string) : M A :=
  λ s, (Raise (Exn k text), s).
Definition reraise {A} (e : exn) : M A := λ s, (Raise e, s).
Definition unmodelled {A} : M A := λ s, (Unmodelled, s).
Definition get_state : M state := λ s, (Ret s, s).
Definition modify (f : state → state) : M () := λ s, (Ret (), f s).

(** [if c: body]. *)
Definition when (c : bool) (body : M ()) : M () :=
  if c then body else mret ().

(** [try: body / except <classes>: handler / else: orelse]. *)
Definition try_except_else {A B} (body : M A) (catches : exn → bool)
    (handler : exn → M B) (orelse : A → M B) : M B := λ s,
  match body s with
  | (Ret a, s') => orelse a s'
  | (Raise e, s') => if catches e then handler e s' else (Raise e, s')
  | (Unmodelled, s') => (Unmodelled, s')
  end.

(** [try: body / except: pass]. *)
Definition try_pass (body : M ()) : M () :=
  try_except_else body (λ _, true) (λ _, mret ()) mret.

(** [except Exception] catches every class but the [BaseException]-only
    ones. *)
Definition is_Exception (e : exn) : bool :=
  match exn_class e with KeyboardInterrupt => false | _ => true end.

Definition is_kind (k : exn_kind) (e : exn) : bool :=
  bool_decide (exn_class e = k).

(** ** Attribute access on the class *)

(** Names that [type.__setattr__] and [type.__delattr__] treat specially
    (the data descriptors of [type] and [object], all of them
    double-underscore names) are outside the model. *)
Definition special_name (name : string) : bool := String.prefix "__" name.

(** [cls.name]: the class namespace; none of the names the module reads
    is inherited from [object] or the metaclass. *)
Definition class_getattr (name : string) : M nsval := λ s,
  match ns s !! name with
  | Some x => (Ret x, s)
  | None => (Raise (Exn AttributeError None), s)
  end.

(** [self._is_internal_op is False], as [VerbosityMeta.__setattr__]
    evaluates it: [self] is the class, so an attribute of that name in the
    class namespace shadows the one of the metaclass. *)
Definition internal_op_is_False (s : state) : bool :=
  match ns s !! "_is_internal_op" with
  | Some (NVal v) => is_False v
  | Some _ => false
  | None => negb (_is_internal_op s)
  end.

(** [type.__setattr__(cls, name, value)]. *)
Definition type_setattr (name : string) (value : nsval) : M () :=
  if special_name name then unmodelled
  else modify (λ s, set_ns (<[name := value]> (ns s)) s).

(** [VerbosityMeta.__setattr__]: every [cls.name = value] and
    [setattr(cls, name, value)] goes through it. *)
Definition VerbosityMeta__setattr__ (name : string) (value : nsval) : M () :=
  s ← get_state;
  if internal_op_is_False s
  then raise ValueError (Some "Can't manually modify Verbosity state")
  else type_setattr name value.

(** [delattr(cls, name)]: the metaclass does not override deletion. *)
Definition class_delattr (name : string) : M () :=
  if special_name name then unmodelled
  else
    s ← get_state;
    match ns s !! name with
    | Some _ => modify (set_ns (delete name (ns s)))
    | None => raise AttributeError None
    end.

(** [_safe_verbosity_modify(func)]: the wrapper opens the guard, calls
    [func], closes the guard, and returns nothing. *)
Definition _safe_verbosity_modify {A} (func : M A) : M pyval :=
  modify (set_internal_op true);;
  func;;
  modify (set_internal_op false);;
  mret VNone.

(** ** The level registry *)

(** The object bound to [cls._verbositiesmap], about to be used as a
    dictionary.  [add] can rebind the name to an integer, on which the
    dictionary operation fails with [on_int]; any other rebinding is
    outside the model. *)
Definition the_verbositiesmap (on_int : exn_kind)
    : M (gmap pykey pyval) :=
  m ← class_getattr "_verbositiesmap";
  match m with
  | NDict d => mret d
  | NVal v => if is_int v then raise on_int None else unmodelled
  | _ => unmodelled
  end.

(** The same for the list bound to [cls._verbosities]. *)
Definition the_verbosities : M (list pyval) :=
  l ← class_getattr "_verbosities";
  match l with
  | NList l => mret l
  | NVal v => if is_int v then raise AttributeError None else unmodelled
  | _ => unmodelled
  end.

(** [cls._verbositiesmap.get(key, None)]. *)
Definition verbositiesmap_get (key : pyval) : M pyval :=
  d ← the_verbositiesmap AttributeError;
  mret (default VNone (k ← to_key key; d !! k)).

(** [cls._verbositiesmap[key]]. *)
Definition verbositiesmap_item (key : pyval) : M pyval :=
  d ← the_verbositiesmap TypeError;
  match k ← to_key key; d !! k with
  | Some v => mret v
  | None => raise KeyError None
  end.

(** In-place update of the mutable object bound to [name]: no attribute
    is assigned, so the metaclass is not involved. *)
Definition mutate_in_place (name : string) (value : nsval) : M () :=
  modify (λ s, set_ns (<[name := value]> (ns s)) s).

(** [cls._verbositiesmap.pop(key)]. *)
Definition verbositiesmap_pop (key : pyval) : M () :=
  d ← the_verbositiesmap AttributeError;
  match k ← to_key key; (λ _, k) <$> d !! k with
  | Some k => mutate_in_place "_verbositiesmap" (NDict (delete k d))
  | None => raise KeyError None
  end.

(** [l.count(x)] and [l.remove(x)] of Python lists. *)
Definition list_count (x : pyval) (l : list pyval) : nat :=
  length (filter (λ y, py_eq y x = true) l).

Fixpoint list_remove (x : pyval) (l : list pyval) : option (list pyval) :=
  match l with
  | [] => None
  | y :: l' => if py_eq y x then Some l' else cons y <$> list_remove x l'
  end.

(** [get_verbosities]: [dict(cls._verbositiesmap)], a copy of the table. *)
Definition get_verbosities : M (gmap pykey pyval) :=
  the_verbositiesmap TypeError.

(** The function [set] as written, before [_safe_verbosity_modify] is
    applied to it.  Its result is the object it returns ([None] for a
    bare [return]). *)
Definition set_func (new_verbosity verify : pyval) : M nsval :=
  match new_verbosity with
  | VStr _ =>
      _vb ← verbositiesmap_get new_verbosity;
      if is_True verify && is_None _vb then mret (NVal VNone)
      else
        _v ← class_getattr "level";
        VerbosityMeta__setattr__ "level" (NVal _vb);;
        mret _v
  | _ =>
      if is_int new_verbosity then
        let _vb := new_verbosity in
        unknown ←
          (if is_True verify
           then l ← the_verbosities;
                mret (bool_decide (list_count _vb l = 0%nat))
           else mret false);
        if (unknown : bool) then mret (NVal VNone)
        else
          _v ← class_getattr "level";
          VerbosityMeta__setattr__ "level" (NVal _vb);;
          mret _v
      else raise TypeError (Some "new_verbosity has to be int or str")
  end.

(** [Verbosity.set]. *)
Definition set (new_verbosity verify : pyval) : M pyval :=
  _safe_verbosity_modify (set_func new_verbosity verify).

Definition add_TypeError_text (verbosity_name verbosity_level : pyval)
    : option string :=
  n ← type_repr verbosity_name;
  l ← type_repr verbosity_level;
  Some ("verbosity_name has to be str(is " +:+ n +:+
        "), verbosity_level has to be int(is " +:+ l +:+ ")").

(** The function [add] as written. *)
Definition add_func (verbosity_name verbosity_level : pyval) : M () :=
  match verbosity_name with
  | VStr name =>
      if is_int verbosity_level then
        by_name ← verbositiesmap_get verbosity_name;
        if negb (is_None by_name) then mret ()
        else
          by_level ← verbositiesmap_get verbosity_level;
          if negb (is_None by_level) then mret ()
          else if py_eq verbosity_level (VInt (-1)) then mret ()
          else
            VerbosityMeta__setattr__ name (NVal verbosity_level);;
            l ← the_verbosities;
            mutate_in_place "_verbosities" (NList (l ++ [verbosity_level]));;
            d ← the_verbositiesmap AttributeError;
            match to_key verbosity_level with
            | Some k =>
                mutate_in_place "_verbositiesmap"
                  (NDict (<[k := verbosity_name]>
                            (<[KStr name := verbosity_level]> d)))
            | None => unmodelled
            end
      else raise TypeError (add_TypeError_text verbosity_name verbosity_level)
  | _ => raise TypeError (add_TypeError_text verbosity_name verbosity_level)
  end.

(** [Verbosity.add]. *)
Definition add (verbosity_name verbosity_level : pyval) : M pyval :=
  _safe_verbosity_modify (add_func verbosity_name verbosity_level).

(** The function [_del_key] as written: three removals, each inside its
    own [try ... except: pass]. *)
Definition _del_key_func (table_key_int table_key_str : pyval) : M () :=
  try_pass
    (l ← the_verbosities;
     match list_remove table_key_int l with
     | Some l' => mutate_in_place "_verbosities" (NList l')
     | None => raise ValueError None
     end);;
  try_pass (verbositiesmap_pop table_key_int);;
  try_pass (verbositiesmap_pop table_key_str).

(** [Verbosity._del_key]. *)
Definition _del_key (table_key_int table_key_str : pyval) : M pyval :=
  _safe_verbosity_modify (_del_key_func table_key_int table_key_str).

(** [cls._del_key(...)]: the name is looked up in the class namespace,
    the arguments are evaluated, and the object found is called. *)
Definition call_del_key (args : M (pyval * pyval)) : M pyval :=
  f ← class_getattr "_del_key";
  '(table_key_int, table_key_str) ← args;
  match f with
  | NOrig => _del_key table_key_int table_key_str
  | _ => raise TypeError None
  end.

(** The function [remove] as written. *)
Definition remove_func (verbosity : pyval) : M () :=
  match verbosity with
  | VStr name =>
      try_except_else
        (class_delattr name;;
         val ← verbositiesmap_item verbosity;
         call_del_key (mret (val, verbosity));;
         mret ())
        (is_kind AttributeError)
        (λ _, mret ())
        mret
  | _ =>
      if is_int verbosity then
        try_except_else
          (name ← verbositiesmap_item verbosity;
           match name with
           | VStr name => class_delattr name
           | _ => raise TypeError None
           end;;
           call_del_key
             (name ← verbositiesmap_item verbosity; mret (verbosity, name));;
           mret ())
          (λ e, is_kind AttributeError e || is_kind KeyError e)
          (λ _, mret ())
          mret
      else mret ()
  end.

(** [Verbosity.remove]. *)
Definition remove (verbosity : pyval) : M pyval :=
  _safe_verbosity_modify (remove_func verbosity).

(** ** Callables, messages and call arguments *)

(** The arguments of a call: [*args] and [**kwargs]. *)
Record call_args := CallArgs {
  pos : list pyval;
  kw : gmap string pyval
}.

(** A Python callable is what it does to the process when called. *)
Definition callable : Type := call_args → M pyval.

#[local] Set Warnings "-register-all".

(** Objects that may be passed as a message: a first-order value, a
    callable, the marker object [Verbosity.PARAMETERS] as it was when the
    module was loaded, or a tuple of such objects. *)
Inductive obj :=
  | OVal (v : pyval)
  | OFun (f : callable)
  | OMarker
  | OTuple (items : list obj).

(** Calling an object: only a function is callable. *)
Definition call_obj (o : obj) (a : call_args) : M pyval :=
  match o with
  | OFun f => f a
  | _ => raise TypeError None
  end.

(** [o == x] for an object read from the class namespace under the name
    [PARAMETERS], where [NOrig] is the marker itself. *)
Definition obj_eq (o : obj) (x : nsval) : bool :=
  match o, x with
  | OMarker, NOrig => true
  | OVal v, NVal w => py_eq v w
  | _, _ => false
  end.

(** An object passed on as an argument of a callable. *)
Definition obj_arg (o : obj) : M pyval :=
  match o with
  | OVal v => mret v
  | _ => unmodelled
  end.

Fixpoint obj_args (items : list obj) : M (list pyval) :=
  match items with
  | [] => mret []
  | o :: items' => v ← obj_arg o; vs ← obj_args items'; mret (v :: vs)
  end.

(** [t[i]] on a tuple. *)
Definition tuple_item (items : list obj) (i : nat) : M obj :=
  match items !! i with
  | Some o => mret o
  | None => raise IndexError None
  end.

(** ** [str.format] and the sinks *)

Definition nl : string := String "010"%char EmptyString.

(** Characters that [repr] of a [str] shows as they are and that do not
    bear on its choice of quotes: printable ASCII other than the single
    quote and the backslash. *)
Definition plain_char (c : ascii) : bool :=
  (32 <=? nat_of_ascii c)%nat && (nat_of_ascii c <=? 126)%nat
  && negb (Ascii.eqb c "039") && negb (Ascii.eqb c "092").

Fixpoint plain_text (t : string) : bool :=
  match t with
  | EmptyString => true
  | String c t' => plain_char c && plain_text t'
  end.

(** [repr(t)] of a [str]: the text between single quotes when all of its
    characters are plain; escapes and the other choice of quotes are
    outside the model. *)
Definition str_repr (t : string) : option string :=
  if plain_text t then Some ("'" +:+ t +:+ "'") else None.

(** [str(e)] of an exception built with the one argument [text]:
    [BaseException.__str__] gives the text itself, [KeyError.__str__]
    its [repr]. *)
Definition exn_str (e : exn) : option string :=
  text ← exn_text e;
  match exn_class e with
  | KeyError => str_repr text
  | _ => Some text
  end.

(** [format(v, '')], which is [str(v)] for the values below. *)
Definition py_str (v : pyval) : option string :=
  match v with
  | VNone => Some "None"
  | VBool true => Some "True"
  | VBool false => Some "False"
  | VInt z => Some (pretty z)
  | VStr s => Some s
  | VExn e => exn_str e
  | VObj _ => None
  end.

Definition result_map {A B} (f : A → B) (r : result A) : result B :=
  match r with
  | Ret a => Ret (f a)
  | Raise e => Raise e
  | Unmodelled => Unmodelled
  end.

(** [template.format] applied to the positional arguments, for
    templates made of literal text, the
    escapes for the two braces, and automatically numbered fields (an
    opening brace directly followed by a closing one).  A field without a
    matching argument raises [IndexError], a lone brace [ValueError];
    every other field is outside the model. *)
Fixpoint str_format (template : string) (args : list pyval) : result string :=
  match template with
  | EmptyString => Ret EmptyString
  | String c rest =>
      if Ascii.eqb c "{" then
        match rest with
        | EmptyString => Raise (Exn ValueError None)
        | String c' rest' =>
            if Ascii.eqb c' "{" then
              result_map (String "{") (str_format rest' args)
            else if Ascii.eqb c' "}" then
              match args with
              | [] => Raise (Exn IndexError None)
              | v :: args' =>
                  match py_str v with
                  | Some text =>
                      result_map (String.append text) (str_format rest' args')
                  | None => Unmodelled
                  end
              end
            else Unmodelled
        end
      else if Ascii.eqb c "}" then
        match rest with
        | String c' rest' =>
            if Ascii.eqb c' "}" then
              result_map (String "}") (str_format rest' args)
            else Raise (Exn ValueError None)
        | EmptyString => Raise (Exn ValueError None)
        end
      else result_map (String c) (str_format rest args)
  end.

Definition lift_result {A} (r : result A) : M A := λ s, (r, s).

(** [out.write(text)] on a text stream: only a [str] is accepted. *)
Definition sink_write (out : nat) (text : pyval) : M () :=
  match text with
  | VStr t => modify (λ s, set_sinks (sinks s ++ [SinkWrite out t]) s)
  | _ => raise TypeError None
  end.

(** [out.flush()]. *)
Definition sink_flush (out : nat) : M () :=
  modify (λ s, set_sinks (sinks s ++ [SinkFlush out]) s).

(** ** The message dispatcher *)

Definition _handle_msg_TypeError_text (msg : obj) : option string :=
  match msg with
  | OVal v =>
      t ← type_repr v;
      Some ("msg has to be callable, str or tuple(actual type: " +:+ t +:+ ")")
  | _ => None
  end.

(** [Verbosity._handle_msg(msg, *args, e, out, end, flush, **kwargs)]. *)
Definition _handle_msg (msg : obj) (args : list pyval) (e : pyval)
    (out : nat) (end_ : pyval) (flush : pyval) (kwargs : gmap string pyval)
    : M pyval :=
  match msg with
  | OFun f =>
      f (CallArgs (if negb (is_None e) then [e] else []) ∅);;
      mret VNone
  | OVal (VStr template) =>
      text ← lift_result (str_format template args);
      sink_write out (VStr text);;
      when (0 <? String.length template)%nat
        (sink_write out end_);;
      when (is_True flush) (sink_flush out);;
      mret VNone
  | OTuple items =>
      first ← tuple_item items 0;
      marker ← class_getattr "PARAMETERS";
      let is_args := obj_eq first marker in
      if negb (is_None e) then
        if is_args then
          second ← tuple_item items 1;
          call_obj second (CallArgs (e :: args) kwargs)
        else
          fixed ← obj_args (tail items);
          call_obj first (CallArgs (e :: fixed) ∅)
      else
        if is_args then
          second ← tuple_item items 1;
          call_obj second (CallArgs args kwargs)
        else
          fixed ← obj_args (tail items);
          call_obj first (CallArgs fixed ∅)
  | OVal VNone => mret VNone
  | _ => raise TypeError (_handle_msg_TypeError_text msg)
  end.

(** ** The decorator *)

(** What one call of [printer] closes over.  [rethrow] is the address of
    the closure cell of that variable: the wrapper assigns to it. *)
Record binding := Binding {
  verb : pyval;
  msg_before : obj;
  msg_after : obj;
  msg_except : obj;
  rethrow : nat;
  bubble : pyval;
  out : nat;
  out_end : pyval;
  flush : pyval
}.

Definition read_cell (c : nat) : M pyval := λ s,
  match cells s !! c with
  | Some v => (Ret v, s)
  | None => (Unmodelled, s)
  end.

Definition write_cell (c : nat) (v : pyval) : M () :=
  modify (λ s, set_cells (<[c := v]> (cells s)) s).

(** The call [cls._handle_msg(msg, [e=e,] out=out, out_end=out_end,
    flush=flush, *args, **kwargs)] of the wrapper: a keyword of the caller
    that repeats one written at the call site, or names the first
    parameter, is a [TypeError]; the caller's [e] and [end] bind the
    parameters of those names; [out_end] and the rest land in the
    [**kwargs] of [_handle_msg], whose [end] keeps its default. *)
Definition call_handle_msg (b : binding) (msg : obj) (e : option pyval)
    (a : call_args) : M pyval :=
  f ← class_getattr "_handle_msg";
  let written :=
    match e with
    | Some _ => ["e"; "out"; "out_end"; "flush"; "msg"]
    | None => ["out"; "out_end"; "flush"; "msg"]
    end in
  if existsb (λ k, bool_decide (is_Some (kw a !! k))) written
  then raise TypeError None
  else
    match f with
    | NOrig =>
        _handle_msg msg (pos a)
          (match e with Some e => e | None => default VNone (kw a !! "e") end)
          (out b)
          (default (VStr nl) (kw a !! "end"))
          (flush b)
          (delete "e" (delete "end" (<["out_end" := out_end b]> (kw a))))
    | _ => raise TypeError None
    end.

Definition rethrow_TypeError_text (r : pyval) : option string :=
  t ← type_repr r;
  Some ("rethrow expected to be None or bool(actual type: " +:+ t +:+ ")").

Definition msg_is_None (msg : obj) : bool :=
  match msg with OVal VNone => true | _ => false end.

(** The inner function [wrapper] of [printer] as written. *)
Definition wrapper_func (b : binding) (func : callable) (a : call_args)
    : M () :=
  level ← class_getattr "level";
  let is_ := match level with NVal l => py_eq (verb b) l | _ => false end in
  if is_ then
    r ← read_cell (rethrow b);
    if negb (is_bool r) && negb (is_None r)
    then raise TypeError (rethrow_TypeError_text r)
    else
      when (msg_is_None (msg_except b))
        (write_cell (rethrow b) (VBool (negb (is_None r))));;
      call_handle_msg b (msg_before b) None a;;
      try_except_else
        (_v ← class_getattr "level";
         when (is_False (bubble b))
           (VerbosityMeta__setattr__ "level" (NVal (VInt (-1))));;
         func a;;
         VerbosityMeta__setattr__ "level" _v)
        is_Exception
        (λ e,
           call_handle_msg b (msg_except b) (Some (VExn e)) a;;
           r ← read_cell (rethrow b);
           if is_True r then reraise e else mret ())
        (λ _, call_handle_msg b (msg_after b) None a;; mret ())
  else
    func a;; mret ().

(** [wrapper] once [_safe_verbosity_modify] is applied: the decorated
    function. *)
Definition wrapper (b : binding) (func : callable) : callable :=
  λ a, _safe_verbosity_modify (wrapper_func b func a).

(** [Verbosity.printer(verb, msg_before, ..., flush)]: a new closure, with
    its own [rethrow] cell; [outer_wrapper] then decorates functions. *)
Definition printer (verb : pyval) (msg_before msg_after msg_except : obj)
    (rethrow bubble : pyval) (out : nat) (out_end flush : pyval)
    : M binding :=
  s ← get_state;
  modify (set_cells (cells s ++ [rethrow]));;
  mret (Binding verb msg_before msg_after msg_except
          (length (cells s)) bubble out out_end flush).

Definition outer_wrapper (b : binding) (func : callable) : callable :=
  wrapper b func.

(** ** The process right after the module is loaded *)

Definition initial_verbositiesmap : gmap pykey pyval :=
  list_to_map
    [ (KStr "NONE", VInt 0); (KStr "INFO", VInt 1);
      (KStr "DEBUG", VInt 2); (KStr "TOTAL", VInt 3);
      (KInt 0, VStr "NONE"); (KInt 1, VStr "INFO");
      (KInt 2, VStr "DEBUG"); (KInt 3, VStr "TOTAL") ].

(** The body of [class Verbosity], name by name. *)
Definition initial_ns : gmap string nsval :=
  list_to_map
    [ ("NONE", NVal (VInt 0)); ("INFO", NVal (VInt 1));
      ("DEBUG", NVal (VInt 2)); ("TOTAL", NVal (VInt 3));
      ("_verbosities", NList [VInt 0; VInt 1; VInt 2; VInt 3]);
      ("_verbositiesmap", NDict initial_verbositiesmap);
      ("level", NVal (VInt 0));
      ("_Internal_Dummy", NOrig); ("PARAMETERS", NOrig);
      ("get_verbosities", NOrig); ("set", NOrig); ("add", NOrig);
      ("_del_key", NOrig); ("remove", NOrig); ("_handle_msg", NOrig);
      ("printer", NOrig) ].

Definition initial_state : state := State false initial_ns [] [].

(** Running a sequence of top-level statements: the state reached, whatever
    the outcome. *)
Definition run {A} (m : M A) (s : state) : state := snd (m s).
Definition outcome {A} (m : M A) (s : state) : result A := fst (m s).

(** The current verbosity level, [Verbosity.level]. *)
Definition level_of (s : state) : option nsval := ns s !! "level".

(** The text a sink has received: its writes, concatenated. *)
Fixpoint sink_text (out : nat) (events : list sink_event) : string :=
  match events with
  | [] => EmptyString
  | SinkWrite o t :: events' =>
      if Nat.eqb o out then t +:+ sink_text out events'
      else sink_text out events'
  | SinkFlush _ :: events' => sink_text out events'
  end.

(** ** Scenarios used below *)

(** The process after [Verbosity.set('INFO')]. *)
Definition at_INFO : state :=
  run (set (VStr "INFO") (VBool true)) initial_state.

(** A wrapped function that raises [ValueError("x")], and one that returns
    42. *)
Definition ValueError_x : exn := Exn ValueError (Some "x").
Definition raises_ValueError_x : callable := λ _, reraise ValueError_x.
Definition returns_42 : callable := λ _, mret (VInt 42).

Definition no_args : call_args := CallArgs [] ∅.

(** [@Verbosity.printer(Verbosity.INFO, "start", "done")] applied to a
    function, which is then called without arguments. *)
Definition start_done (func : callable) : M pyval :=
  b ← printer (VInt 1) (OVal (VStr "start")) (OVal (VStr "done"))
        (OVal VNone) VNone (VBool true) stdout (VStr nl) (VBool true);
  outer_wrapper b func no_args.

(** The closure which that call of [printer] makes when it is the first
    one of the process, and the process once it is made: [rethrow] is the
    first cell, still unset. *)
Definition start_done_binding : binding :=
  Binding (VInt 1) (OVal (VStr "start")) (OVal (VStr "done")) (OVal VNone)
    0 (VBool true) stdout (VStr nl) (VBool true).

Definition decorated (s : state) : state := set_cells [VNone] s.

(** [@Verbosity.printer(Verbosity.INFO, rethrow=..., bubble=False)], all
    messages left at their defaults. *)
Definition suspending (rethrow : pyval) (func : callable) : M pyval :=
  b ← printer (VInt 1) (OVal (VStr EmptyString)) (OVal (VStr EmptyString))
        (OVal VNone) rethrow (VBool false) stdout (VStr nl) (VBool true);
  outer_wrapper b func no_args.

(** A call of [func] decorated with [@Verbosity.printer(Verbosity.DEBUG)],
    all defaults. *)
Definition at_DEBUG (func : callable) : callable := λ a,
  b ← printer (VInt 2) (OVal (VStr EmptyString)) (OVal (VStr EmptyString))
        (OVal VNone) VNone (VBool true) stdout (VStr nl) (VBool true);
  outer_wrapper b func a.

(** A wrapped function that calls a decorated function, which returns
    normally. *)
Definition calls_decorated : callable := at_DEBUG returns_42.



(** A statement [Verbosity.name(...)] of a program: the name is looked up
    in the class namespace at the time of the call, and the object found
    is called.  [method] is what the object the class body bound to that
    name does; a value that [add] or an assignment has put in its place
    is not callable, and a deleted name is an [AttributeError]. *)
Definition call_member {A} (name : string) (method : M A) : M A :=
  f ← class_getattr name;
  match f with
  | NOrig => method
  | _ => raise TypeError None
  end.

(** [Verbosity.set(new_verbosity, verify)], [Verbosity.add(name, level)],
    [Verbosity.remove(verbosity)] and [Verbosity.get_verbosities()] as
    statements. *)
Definition Verbosity_set (new_verbosity verify : pyval) : M pyval :=
  call_member "set" (set new_verbosity verify).
Definition Verbosity_add (verbosity_name verbosity_level : pyval) : M pyval :=
  call_member "add" (add verbosity_name verbosity_level).
Definition Verbosity_remove (verbosity : pyval) : M pyval :=
  call_member "remove" (remove verbosity).
Definition Verbosity_get_verbosities : M (gmap pykey pyval) :=
  call_member "get_verbosities" get_verbosities.

(** The entry under [key] of the table that a run of [m] returns, when it
    returns one. *)
Definition returned_entry (m : M (gmap pykey pyval)) (s : state)
    (key : pykey) : option pyval :=
  match outcome m s with
  | Ret table => table !! key
  | _ => None
  end.

(** The three statements of the round trip of a level through the
    registry. *)
Definition add_remove_get (name level ref : pyval)
    : M (gmap pykey pyval) :=
  Verbosity_add name level;; Verbosity_remove ref;; Verbosity_get_verbosities.

(** [Verbosity.add(name, level)] followed by [Verbosity.set(...)]. *)
Definition add_set (name level new_verbosity verify : pyval) : M pyval :=
  Verbosity_add name level;; Verbosity_set new_verbosity verify.

(** ** Conditions the statements below speak of *)

(** The keywords of a call that the call of [_handle_msg] inside the
    wrapper would capture or reject. *)
Definition plain_keywords (a : call_args) : Prop :=
  Forall (λ k, kw a !! k = None)
    ["e"; "out"; "out_end"; "flush"; "msg"; "end"].

(** The message writes text or is absent: dispatching it runs no
    callable. *)
Definition textual (msg : obj) : Prop :=
  match msg with
  | OVal (VStr _) | OVal VNone => True
  | _ => False
  end.

(** The active level is there and differs from the level of the binding. *)
Definition mismatch (b : binding) (s : state) : Prop :=
  ∃ level, level_of s = Some level ∧
    match level with NVal l => py_eq (verb b) l | _ => false end = false.

(** The guard lets assignments through: the flag of the metaclass is set
    and no class attribute shadows it. *)
Definition open_guard (s : state) : Prop :=
  _is_internal_op s = true ∧ ns s !! "_is_internal_op" = None.

(** Computations that touch neither the class nor the guard. *)
Definition keeps_class {A} (m : M A) : Prop :=
  ∀ s r s', m s = (r, s') →
    ns s' = ns s ∧ _is_internal_op s' = _is_internal_op s.

(** ** The registry as a table of pairs *)

(** The table a process holds, when [_verbositiesmap] still is one, and
    the list of its levels. *)
Definition table_of (s : state) : option (gmap pykey pyval) :=
  match ns s !! "_verbositiesmap" with
  | Some (NDict d) => Some d
  | _ => None
  end.

Definition levels_of (s : state) : option (list pyval) :=
  match ns s !! "_verbosities" with
  | Some (NList l) => Some l
  | _ => None
  end.

(** Both directions of the table agree: every name maps to an integer
    that maps back to the name, and every integer maps to a name that
    maps back to the integer. *)
Definition inverse_table (d : gmap pykey pyval) : Prop :=
  (∀ name v, d !! KStr name = Some v →
     ∃ z, as_int v = Some z ∧ d !! KInt z = Some (VStr name)) ∧
  (∀ z x, d !! KInt z = Some x →
     ∃ name v, x = VStr name ∧ d !! KStr name = Some v ∧ as_int v = Some z).

(** The error of [VerbosityMeta.__setattr__]. *)
Definition protection_error : exn :=
  Exn ValueError (Some "Can't manually modify Verbosity state").

(** ** What a textual message writes *)

(** The calls a string message makes on its sink: the formatted text, the
    line end when the message string is not empty, the flush when asked
    for. *)
Definition written (out : nat) (template text end_ : string) (flush : pyval)
    : list sink_event :=
  ([SinkWrite out text]
   ++ (if (0 <? String.length template)%nat then [SinkWrite out end_] else [])
   ++ (if is_True flush then [SinkFlush out] else []))%list.

(** The sink calls of a message of binding [b] for the call arguments
    [a], for the messages that only write: a string whose formatting
    succeeds, or no message. *)
Definition message_events (b : binding) (msg : obj) (a : call_args)
    : option (list sink_event) :=
  match msg with
  | OVal VNone => Some []
  | OVal (VStr template) =>
      match str_format template (pos a) with
      | Ret text => Some (written (out b) template text nl (flush b))
      | _ => None
      end
  | _ => None
  end.

(** A string without braces. *)
Fixpoint brace_free (t : string) : bool :=
  match t with
  | EmptyString => true
  | String c t' =>
      negb (Ascii.eqb c "{") && negb (Ascii.eqb c "}") && brace_free t'
  end.

(** The binding [b] with another [out_end]. *)
Definition with_out_end (out_end : pyval) (b : binding) : binding :=
  Binding (verb b) (msg_before b) (msg_after b) (msg_except b) (rethrow b)
    (bubble b) (out b) out_end (flush b).

(** [rethrow] is [None] or a [bool]. *)
Definition valid_rethrow (r : pyval) : bool := is_bool r || is_None r.

(** What a decorated function does when the level does not match it: it
    runs [func] under the opened guard and returns [None]. *)
Definition unmatched (func : callable) : callable := λ a s,
  match func a (set_internal_op true s) with
  | (Ret _, s') => (Ret VNone, set_internal_op false s')
  | (Raise e, s') => (Raise e, s')
  | (Unmodelled, s') => (Unmodelled, s')
  end.

(** A callable that returns the number of its positional arguments. *)
Definition counts_arguments : callable :=
  λ a, mret (VInt (Z.of_nat (length (pos a)))).

(** A callable that returns the keyword argument [out_end] it was given,
    [None] when there is none. *)
Definition gets_out_end : callable := λ a,
  mret (default VNone (kw a !! "out_end")).

(** What a wrapped function may do to the process when all it does is
    write to sinks: the class, the guard and the closure cells stay. *)
Definition only_writes (g : state → state) : Prop :=
  ∀ s, ns (g s) = ns s ∧ _is_internal_op (g s) = _is_internal_op s ∧
       cells (g s) = cells s.

(** The process in which the wrapper of binding [b] calls the wrapped
    function on the matched path, when [rethrow] held [r] and the
    before-message wrote [events]: the guard is open, [rethrow] is
    normalised if there is no except-message, and the level is suspended
    if [bubble is False]. *)
Definition normalised (b : binding) (r : pyval) : pyval :=
  if msg_is_None (msg_except b) then VBool (negb (is_None r)) else r.

Definition entered (b : binding) (r : pyval) (events : list sink_event)
    (s : state) : state :=
  State true
    (if is_False (bubble b)
     then <["level" := NVal (VInt (-1))]> (ns s) else ns s)
    (if msg_is_None (msg_except b)
     then <[rethrow b := normalised b r]> (cells s) else cells s)
    (sinks s ++ events).

(** What [start_done_binding] writes before and after the call. *)
Definition start_events : list sink_event :=
  [SinkWrite stdout "start"; SinkWrite stdout nl; SinkFlush stdout].
Definition done_events : list sink_event :=
  [SinkWrite stdout "done"; SinkWrite stdout nl; SinkFlush stdout].

(** [start_done_binding] with [bubble=False]. *)
Definition start_done_suspending : binding :=
  Binding (VInt 1) (OVal (VStr "start")) (OVal (VStr "done")) (OVal VNone)
    0 (VBool false) stdout (VStr nl) (VBool true).

(** A wrapped function that raises [KeyboardInterrupt]. *)
Definition interrupted : callable :=
  λ _, reraise (Exn KeyboardInterrupt None).

(** A binding whose after-message has a field, called without
    arguments. *)
Definition start_field_binding : binding :=
  Binding (VInt 1) (OVal (VStr "start")) (OVal (VStr "{}")) (OVal VNone)
    0 (VBool true) stdout (VStr nl) (VBool true).
Definition field_start_binding : binding :=
  Binding (VInt 1) (OVal (VStr "{}")) (OVal (VStr "done")) (OVal VNone)
    0 (VBool true) stdout (VStr nl) (VBool true).

(** A wrapped function that calls [Verbosity.set('INFO')]. *)
Definition sets_INFO : callable := λ _, set (VStr "INFO") (VBool true).

(** A binding for level DEBUG whose cell is the second one. *)
Definition inner_DEBUG_binding : binding :=
  Binding (VInt 2) (OVal (VStr "in")) (OVal (VStr "out")) (OVal VNone)
    1 (VBool true) stdout (VStr nl) (VBool true).

(** ** The list of levels beside the table *)

(** The integers of the list of levels. *)
Definition level_values (l : list pyval) : list Z := omap as_int l.

(** The list and the table hold the same levels: the list holds
    integers only, each once, and exactly those the table has an entry
    for. *)
Definition levels_agree (l : list pyval) (d : gmap pykey pyval) : Prop :=
  Forall (λ v, is_int v = true) l ∧
  NoDup (level_values l) ∧
  ∀ z, z ∈ level_values l ↔ is_Some (d !! KInt z).

(** The registry as the module keeps it. *)
Definition consistent_registry (l : list pyval) (d : gmap pykey pyval)
    : Prop :=
  inverse_table d ∧ d !! KInt (-1) = None ∧ levels_agree l d.

(** ** Proof support *)

Ltac munfold :=
  unfold mbind, M_bind, mret, M_ret, modify, get_state, raise, reraise,
    unmodelled, when, lift_result, class_getattr, try_pass, try_except_else.

Ltac registry_unfold :=
  unfold set, add, remove, _del_key, call_del_key, _safe_verbosity_modify,
    set_func, add_func, remove_func, _del_key_func, get_verbosities,
    verbositiesmap_get, verbositiesmap_item, verbositiesmap_pop,
    the_verbositiesmap, the_verbosities, mutate_in_place,
    VerbosityMeta__setattr__, type_setattr, class_delattr.

Lemma as_int_to_key (v : pyval) (z : Z) :
  as_int v = Some z → to_key v = Some (KInt z).
Proof. destruct v; simpl; intros; simplify_eq; done. Qed.

Lemma as_int_is_int (v : pyval) (z : Z) : as_int v = Some z → is_int v = true.
Proof. unfold is_int. by intros ->. Qed.

Lemma py_eq_int (v : pyval) (z z' : Z) :
  as_int v = Some z → py_eq v (VInt z') = (z =? z').
Proof. unfold py_eq. by intros ->. Qed.

Lemma py_eq_refl_int (v : pyval) (z : Z) : as_int v = Some z → py_eq v v = true.
Proof. unfold py_eq. intros ->. apply Z.eqb_refl. Qed.

Lemma list_remove_last (x : pyval) (l : list pyval) :
  py_eq x x = true → is_Some (list_remove x (l ++ [x])).
Proof.
  intros Hx. induction l as [|y l IH]; cbn.
  - rewrite Hx. by eexists.
  - destruct (py_eq y x); [by eexists|].
    destruct IH as [l' ->]. by eexists.
Qed.

Lemma plain_keywords_lookup (a : call_args) :
  plain_keywords a →
  kw a !! "e" = None ∧ kw a !! "out" = None ∧ kw a !! "out_end" = None ∧
  kw a !! "flush" = None ∧ kw a !! "msg" = None ∧ kw a !! "end" = None.
Proof. unfold plain_keywords. rewrite !Forall_cons. tauto. Qed.

(** The first call of [printer] in a process makes [start_done_binding]. *)
Lemma start_done_closure (s : state) :
  cells s = [] →
  printer (VInt 1) (OVal (VStr "start")) (OVal (VStr "done")) (OVal VNone)
    VNone (VBool true) stdout (VStr nl) (VBool true) s =
  (Ret start_done_binding, decorated s).
Proof.
  intros Hc. unfold printer, decorated, start_done_binding. munfold. cbn.
  by rewrite Hc.
Qed.

(** ** The registry: [set], [add] and [remove] *)

(** [_del_key(level, name)] on a table that holds both directions of the
    pair takes both out; the list loses one occurrence of the level. *)
Lemma _del_key_removes (s : state) (name : string) (v : pyval) (z : Z)
    (l l' : list pyval) (d : gmap pykey pyval) :
  as_int v = Some z →
  ns s !! "_verbosities" = Some (NList l) →
  list_remove v l = Some l' →
  ns s !! "_verbositiesmap" = Some (NDict d) →
  d !! KInt z = Some (VStr name) → d !! KStr name = Some v →
  _del_key v (VStr name) s =
    (Ret VNone,
     State false
       (<["_verbositiesmap" := NDict (delete (KStr name) (delete (KInt z) d))]>
          (<["_verbositiesmap" := NDict (delete (KInt z) d)]>
             (<["_verbosities" := NList l']> (ns s))))
       (cells s) (sinks s)).
Proof.
  intros Hv Hl Hrm Hm Hk Hn.
  registry_unfold. munfold. cbn.
  rewrite Hl. cbn. rewrite Hrm. cbn.
  rewrite lookup_insert_ne, Hm by done. cbn.
  rewrite (as_int_to_key _ _ Hv). cbn. rewrite Hk. cbn.
  rewrite lookup_insert_eq. cbn.
  rewrite lookup_delete_ne, Hn by done. cbn.
  reflexivity.
Qed.

Section intact_registry.

(** A process whose registry is in place: the list, the table, and no
    class attribute that shadows the flag of the metaclass. *)
Variables (s : state) (l : list pyval) (d : gmap pykey pyval).
Hypothesis the_list : ns s !! "_verbosities" = Some (NList l).
Hypothesis the_table : ns s !! "_verbositiesmap" = Some (NDict d).
Hypothesis unshadowed : ns s !! "_is_internal_op" = None.

(** What a successful [add] leaves behind: the new class attribute, the
    level appended to the list, and both directions entered in the
    table; the guard is closed and nothing is returned. *)
Lemma add_registers (name : string) (v : pyval) (z : Z) :
  as_int v = Some z → z ≠ -1 →
  d !! KStr name = None → d !! KInt z = None →
  special_name name = false →
  name ≠ "_verbosities" → name ≠ "_verbositiesmap" →
  add (VStr name) v s =
    (Ret VNone,
     State false
       (<["_verbositiesmap" :=
            NDict (<[KInt z := VStr name]> (<[KStr name := v]> d))]>
          (<["_verbosities" := NList (l ++ [v])]>
             (<[name := NVal v]> (ns s))))
       (cells s) (sinks s)).
Proof.
  intros Hv Hz Hn Hk Hsp Hn1 Hn2.
  registry_unfold. munfold. cbn.
  rewrite (as_int_is_int _ _ Hv). cbn.
  rewrite the_table. cbn. rewrite Hn. cbn.
  rewrite the_table. cbn. rewrite (as_int_to_key _ _ Hv). cbn.
  rewrite Hk. cbn. rewrite (py_eq_int _ _ _ Hv).
  destruct (Z.eqb_spec z (-1)) as [|_]; [done|]. cbn.
  unfold internal_op_is_False. cbn. rewrite unshadowed, Hsp. cbn.
  rewrite lookup_insert_ne, the_list by done. cbn.
  rewrite lookup_insert_ne, lookup_insert_ne, the_table by done. cbn.
  reflexivity.
Qed.

(** C6, as the code has it: under [verify=False] a string that is not a
    registered name is not rejected.  [set] assigns [None], the result
    of the failed lookup, to [Verbosity.level] and returns nothing. *)
Theorem set_unregistered_name_unverified (name : string) (prior : nsval) :
  d !! KStr name = None →
  level_of s = Some prior →
  set (VStr name) (VBool false) s =
    (Ret VNone,
     State false (<["level" := NVal VNone]> (ns s)) (cells s) (sinks s)).
Proof.
  intros Hd Hl. unfold level_of in Hl.
  registry_unfold. munfold. cbn.
  rewrite the_table. cbn. rewrite Hd. cbn. rewrite Hl. cbn.
  unfold internal_op_is_False. cbn. by rewrite unshadowed.
Qed.

(** C10: [add('level', v)] with a fresh name and a fresh value other
    than -1 succeeds, and the attribute it creates for the new level is
    the active-level attribute itself: the current verbosity level is
    now [v]. *)
Theorem add_level_overwrites_active_level (v : pyval) (z : Z) :
  as_int v = Some z → z ≠ -1 →
  d !! KStr "level" = None → d !! KInt z = None →
  outcome (add (VStr "level") v) s = Ret VNone ∧
  level_of (run (add (VStr "level") v) s) = Some (NVal v) ∧
  get_verbosities (run (add (VStr "level") v) s) =
    (Ret (<[KInt z := VStr "level"]> (<[KStr "level" := v]> d)),
     run (add (VStr "level") v) s).
Proof.
  intros Hv Hz Hn Hk. unfold outcome, run.
  rewrite (add_registers "level" v z) by done. cbn.
  split; [done|]. split.
  - unfold level_of. cbn.
    by rewrite lookup_insert_ne, lookup_insert_ne, lookup_insert_eq.
  - unfold get_verbosities, the_verbositiesmap. munfold. cbn.
    by rewrite lookup_insert_eq.
Qed.

(** The functions [add], [remove] and [get_verbosities] run one after
    the other: for a fresh string name, a fresh integer value other than
    -1, and a name that is none of the members the registry itself works
    with ([_verbosities], [_verbositiesmap], [_del_key]), the first two
    return normally, the third gives the table it gave before, and the
    other members of the class are bound as they were. *)
Lemma add_remove_functions_run (name : string) (v : pyval) (z : Z)
    (ref : pyval) :
  ns s !! "_del_key" = Some NOrig →
  as_int v = Some z → z ≠ -1 →
  d !! KStr name = None → d !! KInt z = None →
  special_name name = false →
  name ≠ "_verbosities" → name ≠ "_verbositiesmap" → name ≠ "_del_key" →
  ref = VStr name ∨ ref = v →
  ∃ s1 s2,
    add (VStr name) v s = (Ret VNone, s1) ∧
    remove ref s1 = (Ret VNone, s2) ∧
    get_verbosities s2 = (Ret d, s2) ∧
    get_verbosities s = (Ret d, s) ∧
    ∀ member, member ≠ name → member ≠ "_verbosities" →
      member ≠ "_verbositiesmap" →
      ns s1 !! member = ns s !! member ∧ ns s2 !! member = ns s !! member.
Proof.
  intros Hdk Hv Hz Hn Hk Hsp Hn1 Hn2 Hn3 Href.
  destruct (list_remove_last v l (py_eq_refl_int _ _ Hv)) as [l' Hrm].
  eexists _, _. split; [by apply (add_registers name v z)|].
  set (d1 := <[KInt z := VStr name]> (<[KStr name := v]> d)).
  set (n1 := <["_verbositiesmap" := NDict d1]>
               (<["_verbosities" := NList (l ++ [v])]>
                  (<[name := NVal v]> (ns s)))).
  assert (Hd1k : d1 !! KInt z = Some (VStr name))
    by (unfold d1; by rewrite lookup_insert_eq).
  assert (Hd1n : d1 !! KStr name = Some v)
    by (unfold d1; by rewrite lookup_insert_ne, lookup_insert_eq).
  assert (Hback : delete (KStr name) (delete (KInt z) d1) = d).
  { unfold d1. rewrite delete_insert_eq, (delete_id _ (KInt z)).
    - by rewrite delete_insert_eq, delete_id.
    - by rewrite lookup_insert_ne. }
  assert (Hn1name : n1 !! name = Some (NVal v)).
  { unfold n1. rewrite !lookup_insert_ne by done. apply lookup_insert_eq. }
  assert (Hn1m : n1 !! "_verbositiesmap" = Some (NDict d1)).
  { unfold n1. by rewrite lookup_insert_eq. }
  set (n2 := delete name n1).
  assert (Hn2m : n2 !! "_verbositiesmap" = Some (NDict d1)).
  { unfold n2, n1. by rewrite lookup_delete_ne, lookup_insert_eq. }
  assert (Hn2l : n2 !! "_verbosities" = Some (NList (l ++ [v]))).
  { unfold n2, n1.
    by rewrite lookup_delete_ne, lookup_insert_ne, lookup_insert_eq. }
  assert (Hn2d : n2 !! "_del_key" = Some NOrig).
  { unfold n2, n1. rewrite lookup_delete_ne by done.
    by rewrite !lookup_insert_ne by done. }
  pose proof (_del_key_removes (State true n2 (cells s) (sinks s)) name v z
                (l ++ [v]) l' d1 Hv Hn2l Hrm Hn2m Hd1k Hd1n) as Hdel.
  cbn in Hdel. rewrite Hback in Hdel.
  assert (Hrun : remove ref (State false n1 (cells s) (sinks s)) =
    (Ret VNone,
     State false
       (<["_verbositiesmap" := NDict d]>
          (<["_verbositiesmap" := NDict (delete (KInt z) d1)]>
             (<["_verbosities" := NList l']> n2)))
       (cells s) (sinks s))).
  { unfold remove, remove_func, _safe_verbosity_modify, call_del_key,
      class_delattr, verbositiesmap_item, the_verbositiesmap.
    munfold. set (dk := _del_key).
    destruct Href as [-> | ->].
    - cbn. rewrite Hsp. cbn. rewrite Hn1name. cbn.
      fold n2. rewrite Hn2m. cbn. rewrite Hd1n. cbn. rewrite Hn2d. cbn.
      subst dk. unfold set_ns, set_internal_op. cbn.
      rewrite Hdel. reflexivity.
    - destruct v as [|bv|zv|sv|ev|iv]; try done; cbn in Hv; simplify_eq; cbn.
      all: rewrite Hn1m; cbn.
      all: rewrite Hd1k; cbn; rewrite Hsp; cbn; rewrite Hn1name; cbn.
      all: fold n2; rewrite Hn2d; cbn; rewrite Hn2m; cbn; rewrite Hd1k; cbn.
      all: subst dk; unfold set_ns, set_internal_op; cbn.
      all: rewrite Hdel; reflexivity. }
  split; [exact Hrun|]. split; [|split].
  - unfold get_verbosities, the_verbositiesmap. munfold. cbn.
    by rewrite lookup_insert_eq.
  - unfold get_verbosities, the_verbositiesmap. munfold. cbn.
    by rewrite the_table.
  - intros member H1 H2 H3. cbn. unfold n2, n1. split.
    + by rewrite !lookup_insert_ne by done.
    + rewrite !lookup_insert_ne by done. rewrite lookup_delete_ne by done.
      by rewrite !lookup_insert_ne by done.
Qed.

(** The round trip as a program runs it, [Verbosity.add(name, v)], then
    [Verbosity.remove(...)] by name or by value, then
    [Verbosity.get_verbosities()], each name looked up in the class when
    its statement is reached: it gives back the table there was before,
    provided the new level does not take the name of a member the three
    statements still need ([remove], [get_verbosities], [_del_key], the
    list or the table). *)
Lemma add_then_remove_restores (name : string) (v : pyval) (z : Z)
    (ref : pyval) :
  ns s !! "add" = Some NOrig → ns s !! "remove" = Some NOrig →
  ns s !! "get_verbosities" = Some NOrig →
  ns s !! "_del_key" = Some NOrig →
  as_int v = Some z → z ≠ -1 →
  d !! KStr name = None → d !! KInt z = None →
  special_name name = false →
  name ≠ "_verbosities" → name ≠ "_verbositiesmap" → name ≠ "_del_key" →
  name ≠ "remove" → name ≠ "get_verbosities" →
  ref = VStr name ∨ ref = v →
  outcome Verbosity_get_verbosities s = Ret d ∧
  outcome (add_remove_get (VStr name) v ref) s = Ret d.
Proof.
  intros Ha Hr Hg Hdk Hv Hz Hn Hk Hsp Hn1 Hn2 Hn3 Hn4 Hn5 Href.
  destruct (add_remove_functions_run name v z ref)
    as (s1 & s2 & Hadd & Hrem & Hget2 & Hget & Hns); try done.
  destruct (Hns "remove") as [Hr1 _]; try done.
  destruct (Hns "get_verbosities") as [_ Hg2]; try done.
  unfold outcome, add_remove_get, Verbosity_add, Verbosity_remove,
    Verbosity_get_verbosities, call_member.
  munfold. cbn. rewrite Hg. cbn. rewrite Hget. split; [done|].
  rewrite Ha. cbn. rewrite Hadd. cbn.
  rewrite Hr1, Hr. cbn. rewrite Hrem. cbn.
  rewrite Hg2, Hg. cbn. by rewrite Hget2.
Qed.

End intact_registry.

Lemma set_unregistered_name_unverified_witness :
  set (VStr "LOUD") (VBool false) initial_state =
    (Ret VNone,
     State false (<["level" := NVal VNone]> initial_ns) [] []).
Proof.
  apply (set_unregistered_name_unverified initial_state
           initial_verbositiesmap) with (prior := NVal (VInt 0));
    reflexivity.
Defined.

(** C6 as stated fails: [set('LOUD', verify=False)] with no level named
    LOUD changes the active level, from 0 to [None]. *)
Lemma set_unregistered_name_not_noop :
  initial_verbositiesmap !! KStr "LOUD" = None ∧
  level_of (run (set (VStr "LOUD") (VBool false)) initial_state)
    ≠ level_of initial_state.
Proof. split; [reflexivity | vm_compute; discriminate]. Qed.

Lemma add_level_overwrites_active_level_witness :
  outcome (add (VStr "level") (VInt 7)) initial_state = Ret VNone ∧
  level_of (run (add (VStr "level") (VInt 7)) initial_state)
    = Some (NVal (VInt 7)) ∧
  get_verbosities (run (add (VStr "level") (VInt 7)) initial_state) =
    (Ret (<[KInt 7 := VStr "level"]>
            (<[KStr "level" := VInt 7]> initial_verbositiesmap)),
     run (add (VStr "level") (VInt 7)) initial_state).
Proof.
  apply (add_level_overwrites_active_level initial_state
           [VInt 0; VInt 1; VInt 2; VInt 3] initial_verbositiesmap);
    first [ reflexivity | lia ].
Defined.

Lemma add_then_remove_restores_on_load :
  outcome Verbosity_get_verbosities initial_state
    = Ret initial_verbositiesmap ∧
  outcome (add_remove_get (VStr "VERBOSE") (VInt 4) (VStr "VERBOSE"))
      initial_state = Ret initial_verbositiesmap.
Proof.
  apply (add_then_remove_restores initial_state
           [VInt 0; VInt 1; VInt 2; VInt 3] initial_verbositiesmap)
    with (z := 4);
    first [ reflexivity | lia | discriminate | by left ].
Qed.

(** C8: the code does not keep the round trip for every pair [add]
    accepts.  On the freshly loaded module the fresh name [_del_key] with
    the fresh value 9 is accepted by [Verbosity.add], which binds the new
    level over the method of that name.  [Verbosity.remove], by name or
    by value, then deletes the attribute, can no longer call the method,
    swallows the [AttributeError] and returns normally, and the table
    that [Verbosity.get_verbosities()] returns still holds both entries
    of the level: it is not the table there was before the [add]. *)
Theorem add_remove_not_restored_for_member_name :
  initial_verbositiesmap !! KStr "_del_key" = None ∧
  initial_verbositiesmap !! KInt 9 = None ∧
  outcome Verbosity_get_verbosities initial_state
    = Ret initial_verbositiesmap ∧
  outcome (Verbosity_add (VStr "_del_key") (VInt 9)) initial_state
    = Ret VNone ∧
  outcome (Verbosity_add (VStr "_del_key") (VInt 9);;
           Verbosity_remove (VStr "_del_key")) initial_state = Ret VNone ∧
  outcome (Verbosity_add (VStr "_del_key") (VInt 9);;
           Verbosity_remove (VInt 9)) initial_state = Ret VNone ∧
  returned_entry (add_remove_get (VStr "_del_key") (VInt 9) (VStr "_del_key"))
      initial_state (KStr "_del_key") = Some (VInt 9) ∧
  returned_entry (add_remove_get (VStr "_del_key") (VInt 9) (VStr "_del_key"))
      initial_state (KInt 9) = Some (VStr "_del_key") ∧
  returned_entry (add_remove_get (VStr "_del_key") (VInt 9) (VInt 9))
      initial_state (KStr "_del_key") = Some (VInt 9) ∧
  returned_entry (add_remove_get (VStr "_del_key") (VInt 9) (VInt 9))
      initial_state (KInt 9) = Some (VStr "_del_key") ∧
  outcome (add_remove_get (VStr "_del_key") (VInt 9) (VStr "_del_key"))
      initial_state
    ≠ outcome Verbosity_get_verbosities initial_state ∧
  outcome (add_remove_get (VStr "_del_key") (VInt 9) (VInt 9)) initial_state
    ≠ outcome Verbosity_get_verbosities initial_state.
Proof.
  do 2 (split; [reflexivity|]). split; [reflexivity|].
  do 7 (split; [vm_compute; reflexivity|]).
  split; intros H;
    apply (f_equal (λ r, match r with
                         | Ret m => m !! KInt 9
                         | _ => None
                         end)) in H;
    vm_compute in H; discriminate.
Qed.

(** C4: whatever [set] is given, the decorated method never hands a level
    back.  On the freshly loaded module [set('INFO')] moves the level from
    0 to 1; the function [set] itself returns the prior level 0, and the
    wrapper of [_safe_verbosity_modify] drops it and returns [None]. *)
Theorem set_drops_prior_level :
  (∀ (new_verbosity verify : pyval) (s : state) (v : pyval),
     outcome (set new_verbosity verify) s ≠ Ret v ∨ v = VNone) ∧
  level_of initial_state = Some (NVal (VInt 0)) ∧
  outcome (set_func (VStr "INFO") (VBool true))
    (set_internal_op true initial_state) = Ret (NVal (VInt 0)) ∧
  outcome (set (VStr "INFO") (VBool true)) initial_state = Ret VNone ∧
  level_of (run (set (VStr "INFO") (VBool true)) initial_state)
    = Some (NVal (VInt 1)).
Proof.
  split; [| by vm_compute].
  intros new_verbosity verify s v.
  unfold outcome, set, _safe_verbosity_modify. munfold. cbn.
  destruct (set_func new_verbosity verify (set_internal_op true s))
    as [[r|e|] s']; cbn.
  - destruct (decide (v = VNone)) as [->|Hne]; [by right|left].
    intros [= <-]. done.
  - by left.
  - by left.
Qed.

(** C5: a mutating operation that raises leaves the guard open.  [set]
    with an argument that is neither [str] nor [int], and [add] with a
    name that is not a [str], raise [TypeError] from any state and end
    with [_is_internal_op] set; so does [remove] of a class member that is
    not a level, which raises [KeyError].  After such a call on the
    freshly loaded module a plain [Verbosity.level = 3] goes through. *)
Theorem guard_left_open_on_TypeError :
  (∀ (id : nat) (verify : pyval) (s : state),
     set (VObj id) verify s =
       (Raise (Exn TypeError (Some "new_verbosity has to be int or str")),
        set_internal_op true s)) ∧
  (∀ (n : Z) (verbosity_level : pyval) (s : state),
     outcome (add (VInt n) verbosity_level) s =
       Raise (Exn TypeError (add_TypeError_text (VInt n) verbosity_level)) ∧
     run (add (VInt n) verbosity_level) s = set_internal_op true s) ∧
  (outcome (remove (VStr "printer")) initial_state
     = Raise (Exn KeyError None) ∧
   _is_internal_op (run (remove (VStr "printer")) initial_state) = true) ∧
  _is_internal_op initial_state = false ∧
  outcome (VerbosityMeta__setattr__ "level" (NVal (VInt 3))) initial_state
    = Raise (Exn ValueError (Some "Can't manually modify Verbosity state")) ∧
  outcome (VerbosityMeta__setattr__ "level" (NVal (VInt 3)))
    (run (set (VObj 0) (VBool true)) initial_state) = Ret ().
Proof.
  split; [done|]. split; [done|]. by vm_compute.
Qed.

(** ** The dispatcher on a string message *)

(** C7, as the code has it: the formatted text is written; the line
    terminator follows exactly when the message string itself, before
    substitution, is non-empty ([len(msg) > 0]); the sink is flushed when
    [flush is True].  An empty message is still written (as the empty
    text) and gets no terminator. *)
Theorem string_message_dispatch (template text terminator : string)
    (args : list pyval) (e : pyval) (out : nat) (flush : pyval)
    (kwargs : gmap string pyval) (s : state) :
  str_format template args = Ret text →
  _handle_msg (OVal (VStr template)) args e out (VStr terminator) flush
      kwargs s =
    (Ret VNone,
     set_sinks
       (sinks s
          ++ [SinkWrite out text]
          ++ (if bool_decide (template = EmptyString) then []
              else [SinkWrite out terminator])
          ++ (if is_True flush then [SinkFlush out] else []))
       s).
Proof.
  intros Hf. unfold _handle_msg, sink_write, sink_flush. munfold.
  rewrite Hf. cbn.
  destruct template as [|c template]; cbn;
    destruct (is_True flush); cbn; unfold set_sinks; cbn;
    rewrite <- ?app_assoc; reflexivity.
Qed.

Lemma string_message_dispatch_witness :
  _handle_msg (OVal (VStr "x={}")) [VInt 5] VNone stdout (VStr nl)
      (VBool true) ∅ initial_state =
    (Ret VNone,
     set_sinks [SinkWrite stdout "x=5"; SinkWrite stdout nl; SinkFlush stdout]
       initial_state).
Proof.
  apply (string_message_dispatch "x={}" "x=5" nl [VInt 5]). reflexivity.
Defined.

(** C7 as stated fails: the template of one empty field, formatted with
    the empty string, gives the empty text, and the terminator is written
    all the same. *)
Lemma terminator_after_empty_text :
  str_format "{}" [VStr EmptyString] = Ret EmptyString ∧
  sinks (run (_handle_msg (OVal (VStr "{}")) [VStr EmptyString] VNone
                stdout (VStr nl) (VBool true) ∅) initial_state)
    = [SinkWrite stdout EmptyString; SinkWrite stdout nl; SinkFlush stdout].
Proof. split; reflexivity. Qed.

(** An exception object among the arguments is formatted by its [str]:
    the text it was built with, and for a [KeyError] the [repr] of that
    text. *)
Lemma str_format_exception_argument :
  str_format "<{}>" [VExn (Exn ValueError (Some "x"))] = Ret "<x>" ∧
  str_format "<{}>" [VExn (Exn KeyError (Some "x"))] = Ret "<'x'>".
Proof. split; reflexivity. Qed.

(** ** The decorator on a matching level *)

(** C1, as the code has it: with no except-message and [rethrow] left
    unset, the wrapper normalises [rethrow] to [False].  The decorated
    call writes the before-message and its line end (and flushes when
    [flush is True]), swallows the [ValueError] and returns [None]; the
    after-message, whatever it is, is not dispatched. *)
Theorem unset_rethrow_swallows (b : binding) (a : call_args) (s : state)
    (level : pyval) :
  level_of s = Some (NVal level) → py_eq (verb b) level = true →
  msg_before b = OVal (VStr "start") →
  msg_except b = OVal VNone →
  cells s !! rethrow b = Some VNone →
  is_False (bubble b) = false →
  ns s !! "_handle_msg" = Some NOrig →
  plain_keywords a →
  outer_wrapper b raises_ValueError_x a s =
    (Ret VNone,
     State false (ns s) (<[rethrow b := VBool false]> (cells s))
       (sinks s
          ++ [SinkWrite (out b) "start"; SinkWrite (out b) nl]
          ++ (if is_True (flush b) then [SinkFlush (out b)] else []))).
Proof.
  intros Hl Heq Hb He Hc Hbub Hh Hkw.
  destruct (plain_keywords_lookup a Hkw) as (Ke & Ko & Koe & Kf & Km & Kend).
  unfold level_of in Hl.
  assert (Hc' : <[rethrow b := VBool false]> (cells s) !! rethrow b
                = Some (VBool false)).
  { apply list_lookup_insert_eq. by eapply lookup_lt_Some. }
  unfold outer_wrapper, wrapper, _safe_verbosity_modify, wrapper_func,
    read_cell, write_cell, call_handle_msg, raises_ValueError_x.
  munfold. cbn.
  rewrite Hl. cbn. rewrite Heq. cbn. rewrite Hc. cbn.
  rewrite He, Hb. cbn. rewrite Hh. cbn.
  rewrite Ko, Koe, Kf, Km, Kend, Ke. cbn.
  unfold sink_write, sink_flush. munfold. cbn.
  destruct (is_True (flush b)); cbn.
  all: rewrite Hl; cbn; rewrite Hbub; cbn.
  all: rewrite Hh; cbn; rewrite Hc'; cbn.
  all: unfold set_sinks, set_internal_op, set_cells; cbn.
  all: rewrite <- ?app_assoc, ?app_nil_r; reflexivity.
Qed.

Lemma unset_rethrow_swallows_witness :
  outer_wrapper start_done_binding raises_ValueError_x no_args
      (decorated at_INFO) =
    (Ret VNone,
     State false (ns at_INFO) [VBool false]
       [SinkWrite stdout "start"; SinkWrite stdout nl; SinkFlush stdout]).
Proof.
  apply (unset_rethrow_swallows start_done_binding no_args
           (decorated at_INFO) (VInt 1));
    try reflexivity.
  unfold plain_keywords, no_args. cbn. repeat constructor.
Defined.

(** C1 as stated fails: the text is written, and the exception does not
    reach the caller. *)
Lemma unset_rethrow_does_not_propagate :
  sink_text stdout (sinks (run (start_done raises_ValueError_x) at_INFO))
    = "start" +:+ nl ∧
  outcome (start_done raises_ValueError_x) at_INFO ≠ Raise ValueError_x.
Proof. split; [reflexivity | vm_compute; discriminate]. Qed.

(** ** The decorator on a level that does not match *)

(** C3, as the code has it: on a mismatch no message is dispatched (the
    run does not depend on the messages of the binding at all) and an
    exception of the wrapped function passes through unchanged.  The
    wrapped function runs with the guard opened; when it returns, the
    guard is closed and the decorated call returns [None], whatever the
    wrapped function returned. *)
Theorem mismatch_skips_dispatch (b : binding) (func : callable)
    (a : call_args) (s : state) :
  mismatch b s →
  outer_wrapper b func a s =
    match func a (set_internal_op true s) with
    | (Ret _, s') => (Ret VNone, set_internal_op false s')
    | (Raise e, s') => (Raise e, s')
    | (Unmodelled, s') => (Unmodelled, s')
    end.
Proof.
  intros (level & Hl & Hne). unfold level_of in Hl.
  unfold outer_wrapper, wrapper, _safe_verbosity_modify, wrapper_func.
  munfold. cbn. rewrite Hl. cbn. rewrite Hne.
  by destruct (func a (set_internal_op true s)) as [[r|e|] s'].
Qed.

Lemma mismatch_skips_dispatch_witness :
  outer_wrapper start_done_binding returns_42 no_args
      (decorated initial_state) =
    (Ret VNone, decorated initial_state).
Proof.
  rewrite (mismatch_skips_dispatch start_done_binding returns_42 no_args
             (decorated initial_state)).
  - reflexivity.
  - exists (NVal (VInt 0)). split; reflexivity.
Defined.

(** C3 as stated fails: on a mismatch the decorated call does not return
    what the undecorated function returns. *)
Lemma mismatch_return_value_differs :
  level_of initial_state = Some (NVal (VInt 0)) ∧
  outcome (returns_42 no_args) initial_state = Ret (VInt 42) ∧
  outcome (at_DEBUG returns_42 no_args) initial_state
    ≠ outcome (returns_42 no_args) initial_state.
Proof.
  split; [|split]; [reflexivity | reflexivity | vm_compute; discriminate].
Qed.

(** ** Suspension of nested messages *)

(** C2: the level a [bubble=False] decorator suspends is not restored
    when the wrapped call raises.  At level INFO, a matching decorator
    around a function that raises leaves the level at -1, whether the
    exception is swallowed ([rethrow] unset) or re-raised ([rethrow=True]);
    the same happens when the wrapped function merely calls another
    decorated function, whose wrapper closes the guard so that the
    restoring assignment itself raises. *)
Theorem suspended_level_not_restored :
  level_of at_INFO = Some (NVal (VInt 1)) ∧
  (outcome (suspending VNone raises_ValueError_x) at_INFO = Ret VNone ∧
   level_of (run (suspending VNone raises_ValueError_x) at_INFO)
     = Some (NVal (VInt (-1)))) ∧
  (outcome (suspending (VBool true) raises_ValueError_x) at_INFO
     = Raise ValueError_x ∧
   level_of (run (suspending (VBool true) raises_ValueError_x) at_INFO)
     = Some (NVal (VInt (-1)))) ∧
  (outcome (suspending VNone calls_decorated) at_INFO = Ret VNone ∧
   level_of (run (suspending VNone calls_decorated) at_INFO)
     = Some (NVal (VInt (-1)))).
Proof. by vm_compute. Qed.

(** ** The guard while a decorated function runs *)

Lemma open_guard_passes (s : state) (name : string) (value : nsval) :
  open_guard s →
  VerbosityMeta__setattr__ name value s = type_setattr name value s.
Proof.
  intros [Hg Hn]. unfold VerbosityMeta__setattr__, internal_op_is_False.
  munfold. cbn. by rewrite Hn, Hg.
Qed.









Lemma keeps_lift {A} (r : result A) : keeps_class (lift_result r).
Proof. by intros s r' s' [= <- <-]. Qed.

Lemma keeps_ret {A} (x : A) : keeps_class (mret x).
Proof. by intros s r' s' [= <- <-]. Qed.

Lemma keeps_raise {A} (k : exn_kind) (text : option string) :
  keeps_class (raise (A:=A) k text).
Proof. by intros s r' s' [= <- <-]. Qed.

Lemma keeps_getattr (name : string) : keeps_class (class_getattr name).
Proof.
  intros s r s'. unfold class_getattr.
  by destruct (ns s !! name); intros [= <- <-].
Qed.

Lemma keeps_sink_write (out : nat) (text : pyval) :
  keeps_class (sink_write out text).
Proof. intros s r s'. destruct text; by intros [= <- <-]. Qed.

Lemma keeps_sink_flush (out : nat) : keeps_class (sink_flush out).
Proof. by intros s r s' [= <- <-]. Qed.

Lemma keeps_when (c : bool) (m : M ()) :
  keeps_class m → keeps_class (when c m).
Proof. destruct c; [done|]. intros _. apply keeps_ret. Qed.

Create HintDb keeps discriminated.
#[local] Hint Resolve keeps_lift keeps_ret keeps_raise keeps_getattr
  keeps_sink_write keeps_sink_flush keeps_when : keeps.








(** ** More of the registry: what [set], [add] and [remove] do case by case *)

(** X1: Whatever runs under [_safe_verbosity_modify] and returns normally
    hands back [None] and leaves the flag of the metaclass cleared; with
    no class attribute shadowing the flag, a direct assignment to the
    class is then refused and changes nothing. *)
Theorem guarded_call_returns_closed {A} (func : M A) (s s' : state)
    (v : pyval) (name : string) (value : nsval) :
  _safe_verbosity_modify func s = (Ret v, s') →
  ns s' !! "_is_internal_op" = None →
  v = VNone ∧ _is_internal_op s' = false ∧
  VerbosityMeta__setattr__ name value s' = (Raise protection_error, s').
Proof.
  unfold _safe_verbosity_modify. munfold. cbn.
  destruct (func (set_internal_op true s)) as [[x|e|] s1]; intros [= <- <-] Hn.
  split; [done|]. split; [done|].
  unfold VerbosityMeta__setattr__, internal_op_is_False. munfold. cbn in *.
  by rewrite Hn.
Qed.

Lemma guarded_call_returns_closed_witness :
  VerbosityMeta__setattr__ "level" (NVal (VInt 3)) at_INFO
    = (Raise protection_error, at_INFO).
Proof.
  apply (guarded_call_returns_closed (set_func (VStr "INFO") (VBool true))
           initial_state at_INFO VNone "level" (NVal (VInt 3)));
    reflexivity.
Defined.

(** X2: [set(X, verify=False)] with an integer [X] always assigns it, the
    suspension value -1 and unregistered values included: the registry is
    not consulted. *)
Theorem set_unverified_integer (s : state) (v verify : pyval) (prior : nsval) :
  ns s !! "_is_internal_op" = None →
  level_of s = Some prior →
  is_int v = true → is_True verify = false →
  set v verify s =
    (Ret VNone,
     State false (<["level" := NVal v]> (ns s)) (cells s) (sinks s)).
Proof.
  intros Hg Hl Hv Hver. unfold level_of in Hl.
  registry_unfold. munfold.
  destruct v; try done; cbn; rewrite Hver; cbn; rewrite Hl; cbn.
  all: unfold internal_op_is_False; cbn; by rewrite Hg.
Qed.

Lemma set_unverified_integer_witness :
  set (VInt (-1)) (VBool false) initial_state =
    (Ret VNone,
     State false (<["level" := NVal (VInt (-1))]> initial_ns) [] []).
Proof.
  apply (set_unverified_integer initial_state (VInt (-1)) (VBool false)
           (NVal (VInt 0))); reflexivity.
Defined.

Section registry_runs.

(** A process whose registry is in place, as in the section above. *)
Variables (s : state) (l : list pyval) (d : gmap pykey pyval).
Hypothesis has_list : ns s !! "_verbosities" = Some (NList l).
Hypothesis has_table : ns s !! "_verbositiesmap" = Some (NDict d).
Hypothesis no_shadow : ns s !! "_is_internal_op" = None.

(** The three runs of [set] and [add] that the statements below and
    later proofs share. *)
Lemma set_verified_unknown_run (new_verbosity : pyval) :
  (∃ name, new_verbosity = VStr name ∧ d !! KStr name = None) ∨
  (is_int new_verbosity = true ∧ list_count new_verbosity l = 0%nat) →
  set new_verbosity (VBool true) s = (Ret VNone, set_internal_op false s).
Proof.
  intros [(name & -> & Hn) | [Hi Hc]]; registry_unfold; munfold.
  - cbn. rewrite has_table. cbn. by rewrite Hn.
  - destruct new_verbosity; try done; cbn; rewrite has_list; cbn.
    all: by rewrite Hc.
Qed.

(** X3: Under [verify=True], [set] of a name that is not in the table, or of
    an integer that is not in the list, changes nothing: it returns
    [None] and the level stays. *)
Theorem set_verified_unknown_is_noop (new_verbosity : pyval) :
  (∃ name, new_verbosity = VStr name ∧ d !! KStr name = None) ∨
  (is_int new_verbosity = true ∧ list_count new_verbosity l = 0%nat) →
  set new_verbosity (VBool true) s = (Ret VNone, set_internal_op false s).
Proof. apply set_verified_unknown_run. Qed.

Lemma set_registered_run (new_verbosity v verify : pyval) (prior : nsval) :
  level_of s = Some prior →
  (∃ name, new_verbosity = VStr name ∧ d !! KStr name = Some v ∧
           is_None v = false) ∨
  (is_int new_verbosity = true ∧ v = new_verbosity ∧
   list_count new_verbosity l ≠ 0%nat) →
  set new_verbosity verify s =
    (Ret VNone,
     State false (<["level" := NVal v]> (ns s)) (cells s) (sinks s)).
Proof.
  intros Hl Hcase. unfold level_of in Hl.
  destruct Hcase as [(name & -> & Hn & Hv) | (Hi & -> & Hc)];
    registry_unfold; munfold.
  - cbn. rewrite has_table. cbn. rewrite Hn. cbn. rewrite Hv.
    rewrite andb_false_r. cbn. rewrite Hl. cbn.
    unfold internal_op_is_False. cbn. by rewrite no_shadow.
  - destruct new_verbosity; try done; cbn.
    all: destruct (is_True verify); cbn.
    all: rewrite ?has_list; cbn; rewrite ?bool_decide_eq_false_2 by done.
    all: cbn; rewrite Hl; cbn.
    all: unfold internal_op_is_False; cbn; by rewrite no_shadow.
Qed.

(** X4: [set] of a registered name assigns the integer the table holds for
    it, and [set] of an integer found in the list assigns that integer,
    with [verify] either way; the caller gets [None]. *)
Theorem set_registered (new_verbosity v verify : pyval) (prior : nsval) :
  level_of s = Some prior →
  (∃ name, new_verbosity = VStr name ∧ d !! KStr name = Some v ∧
           is_None v = false) ∨
  (is_int new_verbosity = true ∧ v = new_verbosity ∧
   list_count new_verbosity l ≠ 0%nat) →
  set new_verbosity verify s =
    (Ret VNone,
     State false (<["level" := NVal v]> (ns s)) (cells s) (sinks s)).
Proof. apply set_registered_run. Qed.

Lemma add_collision_run (name : string) (v : pyval) (z : Z) :
  as_int v = Some z →
  (∃ x, d !! KStr name = Some x ∧ is_None x = false) ∨
  (∃ y, d !! KInt z = Some y ∧ is_None y = false) ∨
  z = -1 →
  add (VStr name) v s = (Ret VNone, set_internal_op false s).
Proof.
  intros Hv Hcase. registry_unfold. munfold. cbn.
  rewrite (as_int_is_int _ _ Hv). cbn. rewrite has_table. cbn.
  destruct (is_None (default VNone (d !! KStr name))) eqn:Hbn; cbn; [|done].
  rewrite has_table. cbn. rewrite (as_int_to_key _ _ Hv). cbn.
  destruct (is_None (default VNone (d !! KInt z))) eqn:Hbl; cbn; [|done].
  rewrite (py_eq_int _ _ _ Hv).
  destruct Hcase as [(x & Hx & Hnx) | [(y & Hy & Hny) | ->]].
  - rewrite Hx in Hbn. cbn in Hbn. congruence.
  - rewrite Hy in Hbl. cbn in Hbl. congruence.
  - done.
Qed.

(** X5: [add] changes nothing when the name is already in the table, when the
    value is, or when the value is -1. *)
Theorem add_collision_is_noop (name : string) (v : pyval) (z : Z) :
  as_int v = Some z →
  (∃ x, d !! KStr name = Some x ∧ is_None x = false) ∨
  (∃ y, d !! KInt z = Some y ∧ is_None y = false) ∨
  z = -1 →
  add (VStr name) v s = (Ret VNone, set_internal_op false s).
Proof. apply add_collision_run. Qed.

(** X6: Right after a successful [add(name, value)] the table answers both
    ways, all its other keys are as before, the level has been appended
    to the list, and the class has the attribute [name]. *)
Theorem add_enters_both_directions (name : string) (v : pyval) (z : Z) :
  as_int v = Some z → z ≠ -1 →
  d !! KStr name = None → d !! KInt z = None →
  special_name name = false →
  name ≠ "_verbosities" → name ≠ "_verbositiesmap" →
  ∃ d',
    table_of (run (add (VStr name) v) s) = Some d' ∧
    d' !! KStr name = Some v ∧ d' !! KInt z = Some (VStr name) ∧
    (∀ k, k ≠ KStr name → k ≠ KInt z → d' !! k = d !! k) ∧
    levels_of (run (add (VStr name) v) s) = Some (l ++ [v])%list ∧
    ns (run (add (VStr name) v) s) !! name = Some (NVal v).
Proof.
  intros Hv Hz Hn Hk Hsp Hn1 Hn2. unfold run.
  rewrite (add_registers s l d has_list has_table no_shadow name v z)
    by done.
  exists (<[KInt z := VStr name]> (<[KStr name := v]> d)).
  unfold table_of, levels_of. cbn. repeat split.
  - by rewrite lookup_insert_eq.
  - by rewrite lookup_insert_ne, lookup_insert_eq.
  - by rewrite lookup_insert_eq.
  - intros k Hk1 Hk2. by rewrite !lookup_insert_ne.
  - by rewrite lookup_insert_ne, lookup_insert_eq.
  - rewrite !lookup_insert_ne by done. by rewrite lookup_insert_eq.
Qed.

End registry_runs.

Lemma set_verified_unknown_is_noop_witness :
  set (VStr "LOUD") (VBool true) initial_state = (Ret VNone, initial_state) ∧
  set (VInt 7) (VBool true) initial_state = (Ret VNone, initial_state).
Proof.
  split.
  - apply (set_verified_unknown_is_noop initial_state
             [VInt 0; VInt 1; VInt 2; VInt 3] initial_verbositiesmap);
      [reflexivity | reflexivity |].
    left. by exists "LOUD".
  - apply (set_verified_unknown_is_noop initial_state
             [VInt 0; VInt 1; VInt 2; VInt 3] initial_verbositiesmap);
      [reflexivity | reflexivity |].
    by right.
Defined.

Lemma set_registered_witness :
  set (VStr "DEBUG") (VBool true) initial_state =
    (Ret VNone, State false (<["level" := NVal (VInt 2)]> initial_ns) [] []).
Proof.
  apply (set_registered initial_state [VInt 0; VInt 1; VInt 2; VInt 3]
           initial_verbositiesmap) with (prior := NVal (VInt 0));
    try reflexivity.
  left. by exists "DEBUG".
Defined.

Lemma add_collision_is_noop_witness :
  add (VStr "INFO") (VInt 1) initial_state = (Ret VNone, initial_state).
Proof.
  apply (add_collision_is_noop initial_state initial_verbositiesmap)
    with (z := 1); try reflexivity.
  left. by exists (VInt 1).
Defined.

Lemma add_enters_both_directions_witness :
  ∃ d',
    table_of (run (add (VStr "VERBOSE") (VInt 4)) initial_state) = Some d' ∧
    d' !! KStr "VERBOSE" = Some (VInt 4) ∧
    d' !! KInt 4 = Some (VStr "VERBOSE") ∧
    (∀ k, k ≠ KStr "VERBOSE" → k ≠ KInt 4 →
          d' !! k = initial_verbositiesmap !! k) ∧
    levels_of (run (add (VStr "VERBOSE") (VInt 4)) initial_state)
      = Some [VInt 0; VInt 1; VInt 2; VInt 3; VInt 4] ∧
    ns (run (add (VStr "VERBOSE") (VInt 4)) initial_state) !! "VERBOSE"
      = Some (NVal (VInt 4)).
Proof.
  apply (add_enters_both_directions initial_state
           [VInt 0; VInt 1; VInt 2; VInt 3] initial_verbositiesmap);
    first [ reflexivity | lia | discriminate ].
Defined.

(** ** The table stays a pair of inverse maps *)

Lemma inverse_table_values (d : gmap pykey pyval) (k : pykey) (x : pyval) :
  inverse_table d → d !! k = Some x → is_None x = false.
Proof.
  intros [H1 H2] Hk. destruct k as [name|z].
  - destruct (H1 _ _ Hk) as (z & Hz & _). by destruct x.
  - by destruct (H2 _ _ Hk) as (name & v & -> & _).
Qed.

Lemma inverse_table_insert (d : gmap pykey pyval) (name : string)
    (v : pyval) (z : Z) :
  inverse_table d → as_int v = Some z →
  d !! KStr name = None → d !! KInt z = None →
  inverse_table (<[KInt z := VStr name]> (<[KStr name := v]> d)).
Proof.
  intros [H1 H2] Hv Hn Hz. split.
  - intros name' v' H. rewrite lookup_insert_ne in H by done.
    destruct (decide (name' = name)) as [->|Hne].
    + rewrite lookup_insert_eq in H. simplify_eq.
      exists z. by rewrite lookup_insert_eq.
    + rewrite lookup_insert_ne in H by congruence.
      destruct (H1 _ _ H) as (z' & Hz' & Hback). exists z'. split; [done|].
      rewrite lookup_insert_ne by congruence.
      by rewrite lookup_insert_ne.
  - intros z' x H.
    destruct (decide (z' = z)) as [->|Hne].
    + rewrite lookup_insert_eq in H. simplify_eq.
      exists name, v. by rewrite lookup_insert_ne, lookup_insert_eq.
    + rewrite lookup_insert_ne, lookup_insert_ne in H by congruence.
      destruct (H2 _ _ H) as (name' & v' & -> & Hn' & Hv').
      exists name', v'. split; [done|]. split; [|done].
      rewrite lookup_insert_ne by done.
      rewrite lookup_insert_ne by congruence. done.
Qed.

Lemma inverse_table_delete (d : gmap pykey pyval) (name : string)
    (v : pyval) (z : Z) :
  inverse_table d → d !! KStr name = Some v → as_int v = Some z →
  inverse_table (delete (KStr name) (delete (KInt z) d)).
Proof.
  intros [H1 H2] Hn Hv.
  destruct (H1 _ _ Hn) as (z0 & Hz0 & Hback). simplify_eq. split.
  - intros name' v' H.
    apply lookup_delete_Some in H as [Hne H].
    rewrite lookup_delete_ne in H by done.
    destruct (H1 _ _ H) as (z' & Hz' & Hback'). exists z'. split; [done|].
    rewrite lookup_delete_ne by done.
    rewrite lookup_delete_ne; [done|]. intros [= ->]. congruence.
  - intros z' x H.
    rewrite lookup_delete_ne in H by done.
    apply lookup_delete_Some in H as [Hne H].
    destruct (H2 _ _ H) as (name' & v' & -> & Hn' & Hv').
    exists name', v'. split; [done|]. split; [|done].
    rewrite lookup_delete_ne; [by rewrite lookup_delete_ne|].
    intros [= ->]. congruence.
Qed.

Lemma initial_table_inverse : inverse_table initial_verbositiesmap.
Proof.
  split.
  - intros name v H.
    assert (Hin : (KStr name, v) ∈ map_to_list initial_verbositiesmap)
      by by apply elem_of_map_to_list.
    vm_compute in Hin.
    repeat (apply elem_of_cons in Hin as [Hin|Hin];
            [simplify_eq; eexists; split; reflexivity|]).
    by apply elem_of_nil in Hin.
  - intros z x H.
    assert (Hin : (KInt z, x) ∈ map_to_list initial_verbositiesmap)
      by by apply elem_of_map_to_list.
    vm_compute in Hin.
    repeat (apply elem_of_cons in Hin as [Hin|Hin];
            [simplify_eq; eexists _, _; repeat split; reflexivity|]).
    by apply elem_of_nil in Hin.
Qed.

(** [_del_key(level, name)] on a table that holds the pair: whether or
    not the list has the level, both keys leave the table and nothing
    else of the class changes. *)
Lemma _del_key_pair (s : state) (name : string) (v : pyval) (z : Z)
    (l : list pyval) (d : gmap pykey pyval) :
  as_int v = Some z →
  ns s !! "_verbosities" = Some (NList l) →
  ns s !! "_verbositiesmap" = Some (NDict d) →
  d !! KInt z = Some (VStr name) → d !! KStr name = Some v →
  ∃ n',
    _del_key v (VStr name) s = (Ret VNone, State false n' (cells s) (sinks s)) ∧
    n' !! "_verbositiesmap"
      = Some (NDict (delete (KStr name) (delete (KInt z) d))) ∧
    n' !! "_verbosities" = Some (NList (default l (list_remove v l))) ∧
    (∀ k, k ≠ "_verbositiesmap" → k ≠ "_verbosities" → n' !! k = ns s !! k).
Proof.
  intros Hv Hl Hm Hk Hn.
  destruct (list_remove v l) as [l'|] eqn:Hrm.
  - eexists. split; [by apply (_del_key_removes s name v z l l' d)|].
    cbn. repeat split.
    + by rewrite lookup_insert_eq.
    + rewrite !lookup_insert_ne by done. apply lookup_insert_eq.
    + intros k Hk1 Hk2. by rewrite !lookup_insert_ne by done.
  - exists (<["_verbositiesmap" :=
                NDict (delete (KStr name) (delete (KInt z) d))]>
              (<["_verbositiesmap" := NDict (delete (KInt z) d)]> (ns s))).
    repeat split.
    + registry_unfold. munfold. cbn.
      rewrite Hl. cbn. rewrite Hrm. cbn. rewrite Hm. cbn.
      rewrite (as_int_to_key _ _ Hv). cbn. rewrite Hk. cbn.
      rewrite lookup_insert_eq. cbn.
      rewrite lookup_delete_ne, Hn by done. cbn.
      reflexivity.
    + by rewrite lookup_insert_eq.
    + by rewrite !lookup_insert_ne by done.
    + intros k Hk1 Hk2. by rewrite !lookup_insert_ne by done.
Qed.

Section registered_pair.

(** A process whose registry is in place and holds the level [name] with
    the value [v], exposed as a class attribute. *)
Variables (s : state) (l : list pyval) (d : gmap pykey pyval).
Variables (name : string) (v : pyval) (z : Z).
Hypothesis has_list : ns s !! "_verbosities" = Some (NList l).
Hypothesis has_table : ns s !! "_verbositiesmap" = Some (NDict d).
Hypothesis has_del_key : ns s !! "_del_key" = Some NOrig.
Hypothesis by_name : d !! KStr name = Some v.
Hypothesis by_value : d !! KInt z = Some (VStr name).
Hypothesis value_int : as_int v = Some z.
Hypothesis exposed : is_Some (ns s !! name).
Hypothesis plain_name : special_name name = false.
Hypothesis not_list : name ≠ "_verbosities".
Hypothesis not_table : name ≠ "_verbositiesmap".
Hypothesis not_del_key : name ≠ "_del_key".

(** What [remove] of the level, by name or by value, leaves behind. *)
Lemma remove_registered (ref : pyval) :
  ref = VStr name ∨ ref = v →
  ∃ n',
    remove ref s = (Ret VNone, State false n' (cells s) (sinks s)) ∧
    n' !! "_verbositiesmap"
      = Some (NDict (delete (KStr name) (delete (KInt z) d))) ∧
    n' !! "_verbosities" = Some (NList (default l (list_remove v l))) ∧
    n' !! name = None ∧
    (∀ k, k ≠ "_verbositiesmap" → k ≠ "_verbosities" → k ≠ name →
          n' !! k = ns s !! k).
Proof.
  intros Href. destruct exposed as [x Hx].
  set (n2 := delete name (ns s)).
  assert (Hn2l : n2 !! "_verbosities" = Some (NList l))
    by (unfold n2; by rewrite lookup_delete_ne).
  assert (Hn2m : n2 !! "_verbositiesmap" = Some (NDict d))
    by (unfold n2; by rewrite lookup_delete_ne).
  assert (Hn2d : n2 !! "_del_key" = Some NOrig)
    by (unfold n2; by rewrite lookup_delete_ne).
  destruct (_del_key_pair (State true n2 (cells s) (sinks s)) name v z l d
              value_int Hn2l Hn2m by_value by_name)
    as (n' & Hdel & Hm' & Hl' & Hrest).
  cbn in Hdel, Hrest.
  exists n'. split; [|split; [done|split; [done|split]]].
  - unfold remove, remove_func, _safe_verbosity_modify, call_del_key,
      class_delattr, verbositiesmap_item, the_verbositiesmap.
    munfold. set (dk := _del_key).
    destruct Href as [-> | ->].
    + cbn. rewrite plain_name. cbn. rewrite Hx. cbn.
      fold n2. rewrite Hn2m. cbn. rewrite by_name. cbn. rewrite Hn2d. cbn.
      subst dk. unfold set_ns, set_internal_op. cbn.
      rewrite Hdel. reflexivity.
    + destruct v as [|bv|zv|sv|ev|iv]; try done;
        cbn in value_int; simplify_eq; cbn.
      all: rewrite has_table; cbn.
      all: rewrite by_value; cbn; rewrite plain_name; cbn; rewrite Hx; cbn.
      all: fold n2; rewrite Hn2d; cbn; rewrite Hn2m; cbn.
      all: rewrite by_value; cbn.
      all: subst dk; unfold set_ns, set_internal_op; cbn.
      all: rewrite Hdel; reflexivity.
  - rewrite Hrest by done. unfold n2. apply lookup_delete_eq.
  - intros k Hk1 Hk2 Hk3. rewrite Hrest by done.
    unfold n2. by rewrite lookup_delete_ne.
Qed.

(** X9: [remove] of a registered level, by name or by value, returns [None],
    takes both directions of the pair out of the table and the attribute
    out of the class, and an inverse table stays inverse.  The method
    [_del_key], the list and the table are in place, so the level has
    none of the names [_del_key], [_verbosities] and [_verbositiesmap]. *)
Theorem remove_takes_both_directions (ref : pyval) :
  ref = VStr name ∨ ref = v →
  inverse_table d →
  ∃ d',
    outcome (remove ref) s = Ret VNone ∧
    table_of (run (remove ref) s) = Some d' ∧
    d' !! KStr name = None ∧ d' !! KInt z = None ∧
    (∀ k, k ≠ KStr name → k ≠ KInt z → d' !! k = d !! k) ∧
    inverse_table d' ∧
    ns (run (remove ref) s) !! name = None.
Proof.
  intros Href Hinv.
  destruct (remove_registered ref Href) as (n' & Hrun & Hm' & Hl' & Hn' & _).
  exists (delete (KStr name) (delete (KInt z) d)).
  unfold outcome, run, table_of. rewrite Hrun. cbn. rewrite Hm'.
  repeat split.
  - apply lookup_delete_eq.
  - rewrite lookup_delete_ne by done. apply lookup_delete_eq.
  - intros k Hk1 Hk2. by rewrite !lookup_delete_ne.
  - by apply inverse_table_delete with (v := v).
  - by apply inverse_table_delete with (v := v).
  - done.
Qed.

(** X11: Removing the same level twice is removing it once: the second call
    returns [None] and changes nothing. *)
Theorem remove_twice (ref : pyval) :
  ref = VStr name ∨ ref = v →
  (remove ref;; remove ref) s = remove ref s.
Proof.
  intros Href.
  destruct (remove_registered ref Href) as (n' & Hrun & Hm' & Hl' & Hn' & _).
  unfold mbind at 1. unfold M_bind. rewrite Hrun.
  unfold remove, remove_func, _safe_verbosity_modify, call_del_key,
      class_delattr, verbositiesmap_item, the_verbositiesmap.
  munfold.
  destruct Href as [-> | ->].
  - cbn. rewrite plain_name. cbn. by rewrite Hn'.
  - destruct v as [|bv|zv|sv|ev|iv]; try done;
      cbn in value_int; simplify_eq; cbn.
    all: rewrite Hm'; cbn.
    all: rewrite lookup_delete_ne by done.
    all: by rewrite lookup_delete_eq.
Qed.

End registered_pair.

Lemma remove_takes_both_directions_witness :
  ∃ d',
    outcome (remove (VInt 1)) initial_state = Ret VNone ∧
    table_of (run (remove (VInt 1)) initial_state) = Some d' ∧
    d' !! KStr "INFO" = None ∧ d' !! KInt 1 = None ∧
    (∀ k, k ≠ KStr "INFO" → k ≠ KInt 1 →
          d' !! k = initial_verbositiesmap !! k) ∧
    inverse_table d' ∧
    ns (run (remove (VInt 1)) initial_state) !! "INFO" = None.
Proof.
  apply (remove_takes_both_directions initial_state
           [VInt 0; VInt 1; VInt 2; VInt 3] initial_verbositiesmap
           "INFO" (VInt 1) 1);
    first [ reflexivity | discriminate | by eexists | by right
          | apply initial_table_inverse ].
Defined.

Lemma remove_twice_witness :
  (remove (VStr "INFO");; remove (VStr "INFO")) initial_state
    = remove (VStr "INFO") initial_state.
Proof.
  apply (remove_twice initial_state [VInt 0; VInt 1; VInt 2; VInt 3]
           initial_verbositiesmap "INFO" (VInt 1) 1);
    first [ reflexivity | discriminate | by eexists | by left ].
Defined.

Section registry_edges.

Variables (s : state) (l : list pyval) (d : gmap pykey pyval).
Hypothesis has_list : ns s !! "_verbosities" = Some (NList l).
Hypothesis has_table : ns s !! "_verbositiesmap" = Some (NDict d).
Hypothesis no_shadow : ns s !! "_is_internal_op" = None.

(** X12: [remove] of something that is not there is silent: a name the class
    has no attribute for, an integer the table has no entry for, or an
    argument that is neither a string nor an integer.  The call returns
    [None] and changes nothing. *)
Theorem remove_unknown_is_noop (ref : pyval) :
  (∃ name, ref = VStr name ∧ special_name name = false ∧
           ns s !! name = None) ∨
  (∃ z, as_int ref = Some z ∧ d !! KInt z = None) ∨
  (is_int ref = false ∧ ∀ name, ref ≠ VStr name) →
  remove ref s = (Ret VNone, set_internal_op false s).
Proof.
  intros Hcase.
  unfold remove, remove_func, _safe_verbosity_modify, call_del_key,
      class_delattr, verbositiesmap_item, the_verbositiesmap.
  munfold.
  destruct Hcase as [(name & -> & Hsp & Hn) | [(z & Hz & Hk) | [Hi Hs]]].
  - cbn. rewrite Hsp. cbn. by rewrite Hn.
  - destruct ref; try done; cbn in Hz; simplify_eq; cbn.
    all: rewrite has_table; cbn; by rewrite Hk.
  - destruct ref; try done. by destruct (Hs s0).
Qed.

(** X13: [remove] of a name that is an attribute of the class but not a level
    does not leave the class alone: the attribute is deleted before the
    table is asked, the [KeyError] of the table reaches the caller, and
    the guard stays open.  The name [_verbositiesmap] is excepted: with
    it the table itself is gone when the lookup is reached. *)
Theorem remove_deletes_member_that_is_no_level (name : string) :
  is_Some (ns s !! name) →
  special_name name = false → name ≠ "_verbositiesmap" →
  d !! KStr name = None →
  remove (VStr name) s =
    (Raise (Exn KeyError None),
     State true (delete name (ns s)) (cells s) (sinks s)).
Proof.
  intros [x Hx] Hsp Hne Hn.
  unfold remove, remove_func, _safe_verbosity_modify, call_del_key,
      class_delattr, verbositiesmap_item, the_verbositiesmap.
  munfold. cbn. rewrite Hsp. cbn. rewrite Hx. cbn.
  rewrite lookup_delete_ne, has_table by done. cbn. by rewrite Hn.
Qed.

Lemma list_count_last (x : pyval) (l0 : list pyval) :
  py_eq x x = true → list_count x (l0 ++ [x]) ≠ 0%nat.
Proof.
  intros Hx. unfold list_count. rewrite filter_app, length_app.
  rewrite filter_cons_True by done. cbn. lia.
Qed.

(** X8: A level that [Verbosity.add] has just registered can be made the
    active one by [Verbosity.set], by its name and by its value, also
    under [verify=True], unless the level took the name [set] (the
    method is then no longer there to call) or [_is_internal_op] (which
    shadows the flag of the guard).  Both statements look their method
    up in the class when they are reached. *)
Theorem add_then_set (name : string) (v : pyval) (z : Z)
    (new_verbosity verify : pyval) :
  ns s !! "add" = Some NOrig → ns s !! "set" = Some NOrig →
  as_int v = Some z → z ≠ -1 →
  d !! KStr name = None → d !! KInt z = None →
  special_name name = false →
  name ≠ "_verbosities" → name ≠ "_verbositiesmap" →
  name ≠ "_is_internal_op" → name ≠ "set" →
  is_Some (level_of s) →
  new_verbosity = VStr name ∨ new_verbosity = v →
  outcome (add_set (VStr name) v new_verbosity verify) s = Ret VNone ∧
  level_of (run (add_set (VStr name) v new_verbosity verify) s)
    = Some (NVal v).
Proof.
  intros Ha Hs Hv Hz Hn Hk Hsp Hn1 Hn2 Hn3 Hn4 [prior Hl] Hnew.
  unfold outcome, run, add_set, Verbosity_add, Verbosity_set, call_member.
  unfold mbind, M_bind, class_getattr. rewrite Ha.
  rewrite (add_registers s l d has_list has_table no_shadow name v z)
    by done.
  set (s1 := State false _ _ _).
  assert (Hs1 : ns s1 !! "set" = Some NOrig).
  { unfold s1. cbn. by rewrite !lookup_insert_ne by done. }
  rewrite Hs1.
  assert (Hl1 : is_Some (level_of s1)).
  { unfold level_of, s1. cbn. rewrite !lookup_insert_ne by done.
    destruct (decide (name = "level")) as [->|Hne].
    - rewrite lookup_insert_eq. by eexists.
    - rewrite lookup_insert_ne by done. by eexists. }
  destruct Hl1 as [prior1 Hl1].
  rewrite (set_registered_run s1 (l ++ [v])
             (<[KInt z := VStr name]> (<[KStr name := v]> d)))
    with (v := v) (prior := prior1).
  - split; [done|]. unfold level_of. cbn. apply lookup_insert_eq.
  - unfold s1. cbn. by rewrite lookup_insert_ne, lookup_insert_eq.
  - unfold s1. cbn. by rewrite lookup_insert_eq.
  - unfold s1. cbn. by rewrite !lookup_insert_ne by done.
  - done.
  - destruct Hnew as [-> | ->].
    + left. exists name. split; [done|].
      rewrite lookup_insert_ne, lookup_insert_eq by done.
      split; [done|]. by destruct v.
    + right. rewrite (as_int_is_int _ _ Hv). split; [done|]. split; [done|].
      apply list_count_last. by eapply py_eq_refl_int.
Qed.

End registry_edges.

Lemma remove_unknown_is_noop_witness :
  remove (VStr "LOUD") initial_state = (Ret VNone, initial_state) ∧
  remove (VInt 9) initial_state = (Ret VNone, initial_state).
Proof.
  split.
  - apply (remove_unknown_is_noop initial_state initial_verbositiesmap);
      [reflexivity|]. left. by exists "LOUD".
  - apply (remove_unknown_is_noop initial_state initial_verbositiesmap);
      [reflexivity|]. right; left. by exists 9.
Defined.

Lemma remove_deletes_member_that_is_no_level_witness :
  remove (VStr "level") initial_state =
    (Raise (Exn KeyError None),
     State true (delete "level" initial_ns) [] []).
Proof.
  apply (remove_deletes_member_that_is_no_level initial_state
           initial_verbositiesmap);
    first [ reflexivity | discriminate | by eexists ].
Defined.

Lemma add_then_set_witness :
  outcome (add_set (VStr "VERBOSE") (VInt 4) (VInt 4) (VBool true))
    initial_state = Ret VNone ∧
  level_of (run (add_set (VStr "VERBOSE") (VInt 4) (VInt 4) (VBool true))
              initial_state) = Some (NVal (VInt 4)).
Proof.
  apply (add_then_set initial_state [VInt 0; VInt 1; VInt 2; VInt 3]
           initial_verbositiesmap) with (z := 4);
    first [ reflexivity | lia | discriminate | by eexists | by right ].
Defined.

(** Under the name [set] the new level takes the place of the method:
    [Verbosity.add('set', 9)] returns normally, the statement
    [Verbosity.set('set')] after it finds the integer 9 where it looks
    for the method, the call is a [TypeError], and the level stays as it
    was. *)
Lemma add_set_displaces_method :
  initial_verbositiesmap !! KStr "set" = None ∧
  initial_verbositiesmap !! KInt 9 = None ∧
  outcome (Verbosity_add (VStr "set") (VInt 9)) initial_state = Ret VNone ∧
  outcome (add_set (VStr "set") (VInt 9) (VStr "set") (VBool true))
    initial_state = Raise (Exn TypeError None) ∧
  level_of (run (add_set (VStr "set") (VInt 9) (VStr "set") (VBool true))
              initial_state) = level_of initial_state.
Proof. do 2 (split; [reflexivity|]). repeat split; vm_compute; reflexivity. Qed.

(** ** The dispatcher on tuples and on other objects *)

Lemma obj_args_values (fixed : list pyval) (s : state) :
  obj_args (OVal <$> fixed) s = (Ret fixed, s).
Proof.
  induction fixed as [|v fixed IH]; [done|].
  cbn. unfold mbind, M_bind. cbn. by rewrite IH.
Qed.

(** The dispatcher on a tuple that starts with the marker: the second
    element is called with the positional arguments the dispatcher was
    given, after the exception when there is one, and with the keywords
    that reached its [**kwargs]. *)
Lemma _handle_msg_marker_tuple (f : callable) (more : list obj)
    (args : list pyval) (e : pyval) (out : nat) (end_ flush : pyval)
    (kwargs : gmap string pyval) (s : state) :
  ns s !! "PARAMETERS" = Some NOrig →
  _handle_msg (OTuple (OMarker :: OFun f :: more)) args e out end_ flush
      kwargs s =
    f (CallArgs (if is_None e then args else e :: args) kwargs) s.
Proof.
  intros Hp. unfold _handle_msg, tuple_item. munfold. cbn.
  rewrite Hp. cbn. destruct (is_None e); cbn.
  all: by destruct (f _ s) as [[x|ex|] s'].
Qed.

(** X16: When the wrapper dispatches a tuple that starts with the marker
    [Verbosity.PARAMETERS], the second element of the tuple is called
    with the positional arguments of the decorated call, after the
    exception when there is one, and with the keyword arguments of the
    decorated call together with [out_end], which the wrapper passes
    under a name that is no parameter of [_handle_msg].  What the callee
    returns or raises is the result; further elements of the tuple, the
    sink and the flush flag play no part.  (For a call without the
    keywords [e], [out], [out_end], [flush], [msg] and [end], which the
    call of [_handle_msg] would reject or bind itself.) *)
Theorem marker_tuple_forwards_call (b : binding) (f : callable)
    (more : list obj) (e : option exn) (a : call_args) (s : state) :
  ns s !! "_handle_msg" = Some NOrig →
  ns s !! "PARAMETERS" = Some NOrig →
  plain_keywords a →
  call_handle_msg b (OTuple (OMarker :: OFun f :: more)) (VExn <$> e) a s =
    f (CallArgs (match e with Some x => VExn x :: pos a | None => pos a end)
         (<["out_end" := out_end b]> (kw a))) s.
Proof.
  intros Hh Hp (He & Ho & Hoe & Hf & Hm & Hend)%plain_keywords_lookup.
  assert (Hkw : delete "e" (delete "end" (<["out_end" := out_end b]> (kw a)))
                = <["out_end" := out_end b]> (kw a)).
  { rewrite (delete_id _ "end") by (by rewrite lookup_insert_ne).
    apply delete_id. by rewrite lookup_insert_ne. }
  unfold call_handle_msg. munfold. rewrite Hh.
  assert (Hex : existsb (λ k, bool_decide (is_Some (kw a !! k)))
                  match VExn <$> e with
                  | Some _ => ["e"; "out"; "out_end"; "flush"; "msg"]
                  | None => ["out"; "out_end"; "flush"; "msg"]
                  end = false).
  { destruct e; cbn; by rewrite ?He, ?Ho, ?Hoe, ?Hf, ?Hm. }
  rewrite Hex, Hend, He, Hkw. cbn [default].
  rewrite _handle_msg_marker_tuple by done.
  by destruct e.
Qed.

Lemma marker_tuple_forwards_call_witness :
  call_handle_msg start_done_binding
      (OTuple [OMarker; OFun counts_arguments])
      None (CallArgs [VInt 1; VInt 2] ∅) initial_state =
    (Ret (VInt 2), initial_state) ∧
  call_handle_msg start_done_binding
      (OTuple [OMarker; OFun gets_out_end])
      (Some (VExn ValueError_x)) no_args initial_state =
    (Ret (VStr nl), initial_state).
Proof.
  split.
  - rewrite (marker_tuple_forwards_call start_done_binding
               counts_arguments [] None (CallArgs [VInt 1; VInt 2] ∅));
      first [ reflexivity | by repeat constructor ].
  - rewrite (marker_tuple_forwards_call start_done_binding
               gets_out_end [] (Some ValueError_x) no_args);
      first [ reflexivity | by repeat constructor ].
Defined.

(** X17: A tuple that starts with a callable calls it with the remaining
    elements of the tuple, after the exception when there is one: the
    arguments of the decorated call are not passed on. *)
Theorem callable_tuple_ignores_call_arguments (f : callable)
    (fixed args : list pyval) (e : pyval) (out : nat) (end_ flush : pyval)
    (kwargs : gmap string pyval) (s : state) :
  is_Some (ns s !! "PARAMETERS") →
  _handle_msg (OTuple (OFun f :: (OVal <$> fixed))) args e out end_ flush
      kwargs s =
    f (CallArgs (if is_None e then fixed else e :: fixed) ∅) s.
Proof.
  intros [x Hp]. unfold _handle_msg, tuple_item. munfold. cbn.
  rewrite Hp. cbn. destruct (is_None e); cbn.
  all: rewrite obj_args_values.
  all: by destruct (f _ s) as [[y|ex|] s'].
Qed.

Lemma callable_tuple_ignores_call_arguments_witness :
  _handle_msg
      (OTuple [OFun counts_arguments; OVal (VStr "only")])
      [VInt 1; VInt 2] VNone stdout (VStr nl) (VBool true) ∅ initial_state =
    (Ret (VInt 1), initial_state).
Proof.
  rewrite (callable_tuple_ignores_call_arguments
             counts_arguments [VStr "only"]);
    [reflexivity | by eexists].
Defined.

(** X18: Messages the dispatcher cannot use: the empty tuple and the tuple of
    the marker alone are an [IndexError], a tuple headed by a value that
    is not callable is the [TypeError] of calling it, and an object that
    is neither callable, string, tuple nor [None] is the [TypeError] of
    the last branch.  Nothing is written in any of these cases. *)
Theorem unusable_message_errors (args fixed : list pyval) (e : pyval)
    (out : nat) (end_ flush : pyval) (kwargs : gmap string pyval)
    (s : state) (v : pyval) :
  ns s !! "PARAMETERS" = Some NOrig →
  _handle_msg (OTuple []) args e out end_ flush kwargs s
    = (Raise (Exn IndexError None), s) ∧
  _handle_msg (OTuple [OMarker]) args e out end_ flush kwargs s
    = (Raise (Exn IndexError None), s) ∧
  _handle_msg (OTuple (OVal v :: (OVal <$> fixed))) args e out end_ flush
      kwargs s
    = (Raise (Exn TypeError None), s) ∧
  _handle_msg OMarker args e out end_ flush kwargs s
    = (Raise (Exn TypeError None), s) ∧
  (is_None v = false → (∀ t, v ≠ VStr t) →
   _handle_msg (OVal v) args e out end_ flush kwargs s
     = (Raise (Exn TypeError (_handle_msg_TypeError_text (OVal v))), s)).
Proof.
  intros Hp. unfold _handle_msg, tuple_item. munfold. cbn.
  rewrite Hp. cbn. repeat split.
  - by destruct (is_None e).
  - destruct (is_None e); cbn; by rewrite obj_args_values.
  - intros Hn Hs. destruct v; try done. by destruct (Hs s0).
Qed.

Lemma unusable_message_errors_witness :
  _handle_msg (OTuple []) [] VNone stdout (VStr nl) (VBool true) ∅
      initial_state
    = (Raise (Exn IndexError None), initial_state) ∧
  _handle_msg (OVal (VInt 5)) [] VNone stdout (VStr nl) (VBool true) ∅
      initial_state
    = (Raise (Exn TypeError
         (Some "msg has to be callable, str or tuple(actual type: <class 'int'>)")),
       initial_state).
Proof.
  destruct (unusable_message_errors [] [] VNone stdout (VStr nl) (VBool true)
              ∅ initial_state (VInt 5)) as (H1 & _ & _ & _ & H5);
    [reflexivity|].
  split; [exact H1|]. apply H5; [reflexivity | discriminate].
Defined.

Lemma str_format_brace_free (t : string) (args : list pyval) :
  brace_free t = true → str_format t args = Ret t.
Proof.
  induction t as [|c t IH]; [done|]. cbn.
  intros [[Ho Hc]%andb_prop Ht]%andb_prop.
  apply negb_true_iff in Ho, Hc. rewrite Ho, Hc, (IH Ht). done.
Qed.

(** X19: A string message without braces is written as it stands, whatever
    the arguments of the decorated call are. *)
Theorem brace_free_message_verbatim (template terminator : string)
    (args : list pyval) (e : pyval) (out : nat) (flush : pyval)
    (kwargs : gmap string pyval) (s : state) :
  brace_free template = true →
  _handle_msg (OVal (VStr template)) args e out (VStr terminator) flush
      kwargs s =
    (Ret VNone,
     set_sinks (sinks s ++ written out template template terminator flush) s).
Proof.
  intros Hb. unfold _handle_msg, sink_write, sink_flush, written. munfold.
  rewrite (str_format_brace_free _ _ Hb). clear Hb.
  destruct template as [|c template]; cbn;
    destruct (is_True flush); cbn; unfold set_sinks; cbn;
    rewrite <- ?app_assoc; reflexivity.
Qed.

Lemma brace_free_message_verbatim_witness :
  _handle_msg (OVal (VStr "done")) [VInt 1; VStr "x"] VNone stdout (VStr nl)
      (VBool true) ∅ initial_state =
    (Ret VNone,
     set_sinks [SinkWrite stdout "done"; SinkWrite stdout nl; SinkFlush stdout]
       initial_state).
Proof.
  apply (brace_free_message_verbatim "done" nl). reflexivity.
Defined.

(** ** The list of levels stays in step with the table *)

Lemma try_pass_never_raises (body : M ()) (s : state) (e : exn) :
  outcome (try_pass body) s ≠ Raise e.
Proof.
  unfold outcome, try_pass, try_except_else.
  by destruct (body s) as [[x|e'|] s'].
Qed.

(** X15: [_del_key] cannot raise, as its docstring says: whatever the keys and
    whatever has become of the list and the table, each removal that
    fails is passed over. *)
Theorem _del_key_never_raises (table_key_int table_key_str : pyval)
    (s : state) (e : exn) :
  outcome (_del_key table_key_int table_key_str) s ≠ Raise e.
Proof.
  unfold outcome, _del_key, _safe_verbosity_modify, _del_key_func.
  unfold mbind, M_bind, mret, M_ret, modify.
  set (s0 := set_internal_op true s).
  pose proof (try_pass_never_raises
    (l ← the_verbosities;
     match list_remove table_key_int l with
     | Some l' => mutate_in_place "_verbosities" (NList l')
     | None => raise ValueError None
     end) s0) as H1.
  unfold outcome in H1. unfold mbind, M_bind in H1.
  destruct (try_pass _ s0) as [[[]|e1|] s1]; cbn; [|by destruct (H1 e1)|done].
  pose proof (try_pass_never_raises (verbositiesmap_pop table_key_int) s1)
    as H2.
  unfold outcome in H2.
  destruct (try_pass _ s1) as [[[]|e2|] s2]; cbn; [|by destruct (H2 e2)|done].
  pose proof (try_pass_never_raises (verbositiesmap_pop table_key_str) s2)
    as H3.
  unfold outcome in H3.
  destruct (try_pass _ s2) as [[[]|e3|] s3]; cbn; [done|by destruct (H3 e3)|done].
Qed.

#[local] Arguments level_values : simpl never.

Lemma py_eq_ints (x y : pyval) (zx zy : Z) :
  as_int x = Some zx → as_int y = Some zy → py_eq x y = (zx =? zy).
Proof. unfold py_eq. by intros -> ->. Qed.

Lemma level_values_cons (v : pyval) (z : Z) (l : list pyval) :
  as_int v = Some z → level_values (v :: l) = z :: level_values l.
Proof. unfold level_values. cbn. by intros ->. Qed.

Lemma level_values_app (l1 l2 : list pyval) :
  level_values (l1 ++ l2) = (level_values l1 ++ level_values l2)%list.
Proof. apply omap_app. Qed.

Lemma list_count_absent (v : pyval) (z : Z) (l : list pyval) :
  Forall (λ v, is_int v = true) l → as_int v = Some z →
  z ∉ level_values l → list_count v l = 0%nat.
Proof.
  intros Hl Hv. unfold list_count.
  induction Hl as [|y l Hy Hl IH]; [done|]. intros Hz.
  unfold is_int in Hy. destruct (as_int y) as [zy|] eqn:Ey; [|done].
  rewrite (level_values_cons _ _ _ Ey) in Hz.
  apply not_elem_of_cons in Hz as [Hne Hz].
  rewrite filter_cons_False; [by apply IH|].
  rewrite (py_eq_ints _ _ _ _ Ey Hv). intros Heq.
  apply Z.eqb_eq in Heq. congruence.
Qed.

Lemma list_remove_level (v : pyval) (z : Z) (l : list pyval) :
  Forall (λ v, is_int v = true) l → NoDup (level_values l) →
  as_int v = Some z → z ∈ level_values l →
  ∃ l', list_remove v l = Some l' ∧
        Forall (λ v, is_int v = true) l' ∧ NoDup (level_values l') ∧
        ∀ z', z' ∈ level_values l' ↔ z' ∈ level_values l ∧ z' ≠ z.
Proof.
  intros Hl. induction Hl as [|y l Hy Hl IH]; intros Hnd Hv Hz.
  { by apply elem_of_nil in Hz. }
  unfold is_int in Hy. destruct (as_int y) as [zy|] eqn:Ey; [|done].
  rewrite (level_values_cons _ _ _ Ey) in Hnd, Hz.
  apply NoDup_cons in Hnd as [Hnotin Hnd].
  cbn. rewrite (py_eq_ints _ _ _ _ Ey Hv).
  destruct (Z.eqb_spec zy z) as [->|Hne].
  - exists l. split; [done|]. split; [done|]. split; [done|].
    intros z'. rewrite (level_values_cons _ _ _ Ey), elem_of_cons.
    split; [|tauto]. intros Hz'. split; [by right|]. by intros ->.
  - apply elem_of_cons in Hz as [->|Hz]; [done|].
    destruct (IH Hnd Hv Hz) as (l' & -> & Hl' & Hnd' & Hiff).
    exists (y :: l'). cbn. split; [done|]. split.
    { constructor; [|done]. unfold is_int. by rewrite Ey. }
    rewrite (level_values_cons _ _ _ Ey). split.
    { apply NoDup_cons. split; [|done]. rewrite Hiff. tauto. }
    intros z'. rewrite (level_values_cons _ _ _ Ey), !elem_of_cons, Hiff.
    split; [|tauto]. intros [->|[? ?]]; [|tauto]. split; [by left|congruence].
Qed.

Lemma initial_registry_consistent :
  consistent_registry [VInt 0; VInt 1; VInt 2; VInt 3] initial_verbositiesmap.
Proof.
  split; [apply initial_table_inverse|]. split; [reflexivity|].
  split; [by repeat constructor|]. split.
  - by apply (bool_decide_unpack (NoDup [0; 1; 2; 3])).
  - intros z. cbn. split.
    + intros Hz.
      repeat (apply elem_of_cons in Hz as [->|Hz]; [by eexists|]).
      by apply elem_of_nil in Hz.
    + intros [x Hx].
      assert (Hin : (KInt z, x) ∈ map_to_list initial_verbositiesmap)
        by by apply elem_of_map_to_list.
      vm_compute in Hin.
      repeat (apply elem_of_cons in Hin as [Hin|Hin];
              [simplify_eq; set_solver|]).
      by apply elem_of_nil in Hin.
Qed.

Section consistent_add.

Variables (s : state) (l : list pyval) (d : gmap pykey pyval).
Hypothesis has_list : ns s !! "_verbosities" = Some (NList l).
Hypothesis has_table : ns s !! "_verbositiesmap" = Some (NDict d).
Hypothesis no_shadow : ns s !! "_is_internal_op" = None.
Hypothesis consistent : consistent_registry l d.

(** X7: [add] keeps the registry consistent, whether it registers the pair
    or finds a collision: the table stays a pair of inverse maps without
    the key -1, and the list holds exactly the integers of the table,
    each once. *)
Theorem add_keeps_registry_consistent (name : string) (v : pyval) (z : Z) :
  as_int v = Some z →
  special_name name = false →
  name ≠ "_verbosities" → name ≠ "_verbositiesmap" →
  ∃ l' d',
    outcome (add (VStr name) v) s = Ret VNone ∧
    levels_of (run (add (VStr name) v) s) = Some l' ∧
    table_of (run (add (VStr name) v) s) = Some d' ∧
    consistent_registry l' d'.
Proof.
  intros Hv Hsp Hn1 Hn2.
  destruct consistent as (Hinv & Hm1 & Hall & Hnd & Hiff).
  assert (Hnoop : add (VStr name) v s = (Ret VNone, set_internal_op false s) →
    ∃ l' d', outcome (add (VStr name) v) s = Ret VNone ∧
      levels_of (run (add (VStr name) v) s) = Some l' ∧
      table_of (run (add (VStr name) v) s) = Some d' ∧
      consistent_registry l' d').
  { intros Hrun. exists l, d.
    unfold outcome, run, table_of, levels_of. rewrite Hrun. cbn.
    by rewrite has_table, has_list. }
  destruct (d !! KStr name) as [x|] eqn:Hn.
  { apply Hnoop, (add_collision_run s d has_table name v z Hv).
    left. exists x. split; [done|]. by eapply inverse_table_values. }
  destruct (d !! KInt z) as [y|] eqn:Hk.
  { apply Hnoop, (add_collision_run s d has_table name v z Hv).
    right; left. exists y. split; [done|]. by eapply inverse_table_values. }
  destruct (decide (z = -1)) as [->|Hz].
  { apply Hnoop, (add_collision_run s d has_table name v (-1) Hv).
    by right; right. }
  exists (l ++ [v])%list, (<[KInt z := VStr name]> (<[KStr name := v]> d)).
  unfold outcome, run, table_of, levels_of.
  rewrite (add_registers s l d has_list has_table no_shadow name v z)
    by done.
  cbn. rewrite lookup_insert_eq.
  rewrite lookup_insert_ne, lookup_insert_eq by done.
  split; [done|]. split; [done|]. split; [done|].
  split; [by apply inverse_table_insert|]. split.
  { rewrite !lookup_insert_ne; [done|done|congruence]. }
  assert (Hzl : z ∉ level_values l).
  { rewrite Hiff, Hk. by intros [? ?]. }
  split; [|split].
  - apply Forall_app. split; [done|]. constructor; [|done].
    by eapply as_int_is_int.
  - rewrite level_values_app, (level_values_cons _ _ _ Hv).
    apply NoDup_app. split; [done|]. split.
    + intros z' Hz' ->%list_elem_of_singleton. done.
    + apply NoDup_singleton.
  - intros z'. rewrite level_values_app, (level_values_cons _ _ _ Hv).
    rewrite elem_of_app, Hiff. cbn. rewrite list_elem_of_singleton.
    destruct (decide (z' = z)) as [->|Hne].
    + rewrite lookup_insert_eq. split; [by eexists|by right].
    + rewrite lookup_insert_ne, lookup_insert_ne by congruence.
      split; [by intros [?|?]|by left].
Qed.

End consistent_add.

Lemma add_keeps_registry_consistent_witness :
  ∃ l' d',
    outcome (add (VStr "VERBOSE") (VInt 4)) initial_state = Ret VNone ∧
    levels_of (run (add (VStr "VERBOSE") (VInt 4)) initial_state) = Some l' ∧
    table_of (run (add (VStr "VERBOSE") (VInt 4)) initial_state) = Some d' ∧
    consistent_registry l' d'.
Proof.
  apply (add_keeps_registry_consistent initial_state
           [VInt 0; VInt 1; VInt 2; VInt 3] initial_verbositiesmap)
    with (z := 4);
    first [ reflexivity | discriminate | apply initial_registry_consistent ].
Defined.

Section consistent_remove.

(** A consistent registry that holds the level [name], exposed as a class
    attribute. *)
Variables (s : state) (l : list pyval) (d : gmap pykey pyval).
Variables (name : string) (v : pyval).
Hypothesis has_list : ns s !! "_verbosities" = Some (NList l).
Hypothesis has_table : ns s !! "_verbositiesmap" = Some (NDict d).
Hypothesis has_del_key : ns s !! "_del_key" = Some NOrig.
Hypothesis consistent : consistent_registry l d.
Hypothesis by_name : d !! KStr name = Some v.
Hypothesis exposed : is_Some (ns s !! name).
Hypothesis plain_name : special_name name = false.
Hypothesis not_list : name ≠ "_verbosities".
Hypothesis not_table : name ≠ "_verbositiesmap".
Hypothesis not_del_key : name ≠ "_del_key".

Lemma remove_consistent_run (ref : pyval) :
  ref = VStr name ∨ ref = v →
  ∃ z n' l' d',
    as_int v = Some z ∧
    remove ref s = (Ret VNone, State false n' (cells s) (sinks s)) ∧
    n' !! "_verbosities" = Some (NList l') ∧
    n' !! "_verbositiesmap" = Some (NDict d') ∧
    consistent_registry l' d' ∧
    d' !! KStr name = None ∧ z ∉ level_values l'.
Proof.
  intros Href.
  destruct consistent as (Hinv & Hm1 & Hall & Hnd & Hiff).
  destruct (proj1 Hinv _ _ by_name) as (z & Hv & Hback).
  assert (Hz : z ∈ level_values l) by (rewrite Hiff, Hback; by eexists).
  destruct (list_remove_level v z l Hall Hnd Hv Hz)
    as (l' & Hrm & Hall' & Hnd' & Hiff').
  destruct (remove_registered s l d name v z has_list has_table has_del_key
              by_name Hback Hv exposed plain_name not_list not_table
              not_del_key ref Href)
    as (n' & Hrun & Hm' & Hl' & _).
  rewrite Hrm in Hl'. cbn in Hl'.
  exists z, n', l', (delete (KStr name) (delete (KInt z) d)).
  split; [done|]. split; [done|]. split; [done|]. split; [done|].
  split; [|split].
  - split; [by apply inverse_table_delete with (v := v)|]. split.
    { rewrite lookup_delete_ne by done. apply lookup_delete_None. by right. }
    split; [done|]. split; [done|].
    intros z'. rewrite Hiff', Hiff, lookup_delete_ne by done.
    destruct (decide (z' = z)) as [->|Hne].
    + rewrite lookup_delete_eq. split; [tauto|]. by intros [? ?].
    + rewrite lookup_delete_ne by congruence. tauto.
  - apply lookup_delete_eq.
  - rewrite Hiff'. tauto.
Qed.

(** X10: [remove] of a registered level, by name or by value, keeps the
    registry consistent: the table stays a pair of inverse maps, and the
    list loses exactly the value the table has lost. *)
Theorem remove_keeps_registry_consistent (ref : pyval) :
  ref = VStr name ∨ ref = v →
  ∃ l' d',
    outcome (remove ref) s = Ret VNone ∧
    levels_of (run (remove ref) s) = Some l' ∧
    table_of (run (remove ref) s) = Some d' ∧
    consistent_registry l' d'.
Proof.
  intros Href.
  destruct (remove_consistent_run ref Href)
    as (z & n' & l' & d' & _ & Hrun & Hl' & Hm' & Hcons & _).
  exists l', d'. unfold outcome, run, levels_of, table_of.
  rewrite Hrun. cbn. by rewrite Hl', Hm'.
Qed.

(** X14: Once a level is removed, [set] under [verify=True] no longer accepts
    it, neither by its name nor by its value: the call after the removal
    changes nothing. *)
Theorem removed_level_cannot_be_set (ref new_verbosity : pyval) :
  ref = VStr name ∨ ref = v →
  new_verbosity = VStr name ∨ new_verbosity = v →
  (remove ref;; set new_verbosity (VBool true)) s = remove ref s.
Proof.
  intros Href Hnew.
  destruct (remove_consistent_run ref Href)
    as (z & n' & l' & d' & Hv & Hrun & Hl' & Hm' & Hcons & Hgone & Hz).
  unfold mbind at 1. unfold M_bind. rewrite Hrun.
  rewrite (set_verified_unknown_run (State false n' (cells s) (sinks s))
             l' d' Hl' Hm'); [done|].
  destruct Hnew as [-> | ->].
  - left. by exists name.
  - right. split; [by eapply as_int_is_int|].
    destruct Hcons as (_ & _ & Hall & _).
    by eapply list_count_absent.
Qed.

End consistent_remove.

Lemma remove_keeps_registry_consistent_witness :
  ∃ l' d',
    outcome (remove (VStr "DEBUG")) initial_state = Ret VNone ∧
    levels_of (run (remove (VStr "DEBUG")) initial_state) = Some l' ∧
    table_of (run (remove (VStr "DEBUG")) initial_state) = Some d' ∧
    consistent_registry l' d'.
Proof.
  apply (remove_keeps_registry_consistent initial_state
           [VInt 0; VInt 1; VInt 2; VInt 3] initial_verbositiesmap
           "DEBUG" (VInt 2));
    first [ reflexivity | discriminate | by eexists | by left
          | apply initial_registry_consistent ].
Defined.

Lemma removed_level_cannot_be_set_witness :
  (remove (VStr "DEBUG");; set (VInt 2) (VBool true)) initial_state
    = remove (VStr "DEBUG") initial_state.
Proof.
  apply (removed_level_cannot_be_set initial_state
           [VInt 0; VInt 1; VInt 2; VInt 3] initial_verbositiesmap
           "DEBUG" (VInt 2));
    first [ reflexivity | discriminate | by eexists | by left | by right
          | apply initial_registry_consistent ].
Defined.

(** ** The decorator on a matching level, path by path *)

Lemma textual_dispatch_run (b : binding) (msg : obj) (e : option pyval)
    (a : call_args) (s : state) (events : list sink_event) :
  ns s !! "_handle_msg" = Some NOrig →
  plain_keywords a →
  message_events b msg a = Some events →
  call_handle_msg b msg e a s = (Ret VNone, set_sinks (sinks s ++ events) s).
Proof.
  intros Hh Hkw Hev.
  destruct (plain_keywords_lookup a Hkw) as (Ke & Ko & Koe & Kf & Km & Kend).
  unfold call_handle_msg. munfold. rewrite Hh.
  assert (Hex : existsb (λ k, bool_decide (is_Some (kw a !! k)))
                  match e with
                  | Some _ => ["e"; "out"; "out_end"; "flush"; "msg"]
                  | None => ["out"; "out_end"; "flush"; "msg"]
                  end = false).
  { destruct e; cbn; by rewrite ?Ke, ?Ko, ?Koe, ?Kf, ?Km. }
  rewrite Hex, Kend. cbn [default].
  destruct msg as [[| | |template| |]| | |]; try done; cbn in Hev.
  - simplify_eq. unfold _handle_msg. cbn. unfold set_sinks.
    by rewrite app_nil_r; destruct s.
  - destruct (str_format template (pos a)) as [text| |] eqn:Hf; [|done..].
    simplify_eq. unfold _handle_msg, sink_write, sink_flush, written.
    munfold. rewrite Hf. cbn.
    destruct template as [|c template]; cbn;
      destruct (is_True (flush b)); cbn; unfold set_sinks; cbn;
      rewrite <- ?app_assoc; reflexivity.
Qed.

Lemma type_setattr_level (value : nsval) (s : state) :
  type_setattr "level" value s =
    (Ret (), set_ns (<["level" := value]> (ns s)) s).
Proof. reflexivity. Qed.

Lemma valid_rethrow_check (r : pyval) :
  valid_rethrow r = true → negb (is_bool r) && negb (is_None r) = false.
Proof. unfold valid_rethrow. by destruct (is_bool r), (is_None r). Qed.

Lemma format_failure_run (b : binding) (template : string) (e : option pyval)
    (a : call_args) (s : state) (failure : exn) :
  ns s !! "_handle_msg" = Some NOrig →
  plain_keywords a →
  str_format template (pos a) = Raise failure →
  call_handle_msg b (OVal (VStr template)) e a s = (Raise failure, s).
Proof.
  intros Hh Hkw Hf.
  destruct (plain_keywords_lookup a Hkw) as (Ke & Ko & Koe & Kf & Km & Kend).
  unfold call_handle_msg. munfold. rewrite Hh.
  assert (Hex : existsb (λ k, bool_decide (is_Some (kw a !! k)))
                  match e with
                  | Some _ => ["e"; "out"; "out_end"; "flush"; "msg"]
                  | None => ["out"; "out_end"; "flush"; "msg"]
                  end = false).
  { destruct e; cbn; by rewrite ?Ke, ?Ko, ?Koe, ?Kf, ?Km. }
  rewrite Hex. unfold _handle_msg. munfold. by rewrite Hf.
Qed.

Lemma unmatched_run (b : binding) (func : callable) (a : call_args)
    (s : state) :
  mismatch b s → outer_wrapper b func a s = unmatched func a s.
Proof.
  intros (level & Hl & Hne). unfold level_of in Hl.
  unfold outer_wrapper, wrapper, _safe_verbosity_modify, wrapper_func,
    unmatched.
  munfold. cbn. rewrite Hl. cbn. rewrite Hne.
  by destruct (func a (set_internal_op true s)) as [[x|e|] s'].
Qed.

Section matched_call.

(** A call on the matched path: the level is the one of the binding,
    [rethrow] is valid, no class attribute shadows the flag, the
    dispatcher is in place, the keywords of the call are plain and the
    before-message only writes. *)
Variables (b : binding) (a : call_args) (s : state).
Variables (level r : pyval) (before : list sink_event).
Hypothesis at_level : level_of s = Some (NVal level).
Hypothesis matches : py_eq (verb b) level = true.
Hypothesis rethrow_is : cells s !! rethrow b = Some r.
Hypothesis rethrow_valid : valid_rethrow r = true.
Hypothesis no_shadow : ns s !! "_is_internal_op" = None.
Hypothesis dispatcher : ns s !! "_handle_msg" = Some NOrig.
Hypothesis plain : plain_keywords a.
Hypothesis before_writes : message_events b (msg_before b) a = Some before.

Lemma entered_cell : cells (entered b r before s) !! rethrow b
  = Some (normalised b r).
Proof.
  unfold entered, normalised. cbn.
  destruct (msg_is_None (msg_except b)); [|done].
  apply list_lookup_insert_eq. by eapply lookup_lt_Some.
Qed.

Lemma entered_ns (k : string) :
  k ≠ "level" → ns (entered b r before s) !! k = ns s !! k.
Proof.
  intros Hk. unfold entered. cbn.
  destruct (is_False (bubble b)); [|done]. by rewrite lookup_insert_ne.
Qed.

(** The run of the wrapper up to the call of the wrapped function, and
    what is left to do after it. *)
Lemma matched_run (func : callable) :
  outer_wrapper b func a s =
    (try_except_else
       (func a;; VerbosityMeta__setattr__ "level" (NVal level))
       is_Exception
       (λ e,
          call_handle_msg b (msg_except b) (Some (VExn e)) a;;
          r ← read_cell (rethrow b);
          if is_True r then reraise e else mret ())
       (λ _, call_handle_msg b (msg_after b) None a;; mret ())
     ≫= λ _, modify (set_internal_op false);; mret VNone)
      (entered b r before s).
Proof.
  unfold level_of in at_level.
  unfold outer_wrapper, wrapper, _safe_verbosity_modify, wrapper_func,
    read_cell, write_cell, entered, normalised.
  set (chm := call_handle_msg).
  destruct (msg_is_None (msg_except b)) eqn:Hme;
    destruct (is_False (bubble b)) eqn:Hbub.
  all: munfold; cbn.
  all: rewrite at_level; cbn; rewrite matches; cbn; rewrite rethrow_is; cbn.
  all: rewrite (valid_rethrow_check _ rethrow_valid); cbn.
  all: subst chm.
  all: rewrite (textual_dispatch_run b (msg_before b) None a _ before)
        by done; cbn.
  all: rewrite at_level; cbn.
  all: unfold VerbosityMeta__setattr__ at 1, type_setattr.
  all: munfold; unfold internal_op_is_False; cbn; rewrite ?no_shadow; cbn.
  all: reflexivity.
Qed.


Lemma entered_open_guard (g : state → state) :
  only_writes g → open_guard (g (entered b r before s)).
Proof.
  intros Hg. destruct (Hg (entered b r before s)) as (Hn & Hgt & _).
  split; [by rewrite Hgt|]. by rewrite Hn, entered_ns.
Qed.

Lemma entered_level_restored :
  <["level" := NVal level]> (ns (entered b r before s)) = ns s.
Proof.
  unfold entered. cbn. unfold level_of in at_level.
  destruct (is_False (bubble b)).
  - rewrite insert_insert_eq. by apply insert_id.
  - by apply insert_id.
Qed.

(** X20: The matched call of a function that returns: the before-message is
    written, the function runs (with the level suspended if [bubble is
    False]), the level is put back, the after-message is written, the
    guard is closed, and the caller gets [None] whatever the function
    returned. *)
Theorem matched_call_returns (func : callable) (x : pyval)
    (g : state → state) (after : list sink_event) :
  message_events b (msg_after b) a = Some after →
  (∀ s', func a s' = (Ret x, g s')) → only_writes g →
  outer_wrapper b func a s =
    (Ret VNone,
     State false (ns s) (cells (entered b r before s))
       (sinks (g (entered b r before s)) ++ after)).
Proof.
  intros Hafter Hf Hg. rewrite (matched_run func).
  destruct (Hg (entered b r before s)) as (Hn & Hgt & Hc).
  unfold try_except_else. munfold. rewrite Hf. cbv beta iota.
  rewrite (open_guard_passes _ _ _ (entered_open_guard g Hg)).
  rewrite type_setattr_level. cbv beta iota.
  rewrite (textual_dispatch_run b (msg_after b) None a _ after); [|
    cbn -[entered]; rewrite lookup_insert_ne by done;
    by rewrite Hn, entered_ns | done | done].
  unfold set_internal_op, set_sinks, set_ns. cbn -[entered].
  rewrite Hn, Hc. by rewrite entered_level_restored.
Qed.

Lemma matched_raise_run (func : callable) (e : exn) (g : state → state)
    (handled : list sink_event) :
  message_events b (msg_except b) a = Some handled →
  (∀ s', func a s' = (Raise e, g s')) → only_writes g →
  is_Exception e = true →
  outer_wrapper b func a s =
    if is_True (normalised b r)
    then (Raise e,
          State true (ns (entered b r before s))
            (cells (entered b r before s))
            (sinks (g (entered b r before s)) ++ handled))
    else (Ret VNone,
          State false (ns (entered b r before s))
            (cells (entered b r before s))
            (sinks (g (entered b r before s)) ++ handled)).
Proof.
  intros Hhandled Hf Hg He. rewrite (matched_run func).
  destruct (Hg (entered b r before s)) as (Hn & Hgt & Hc).
  unfold try_except_else. munfold. rewrite Hf. cbv beta iota. rewrite He.
  rewrite (textual_dispatch_run b (msg_except b) (Some (VExn e)) a _ handled);
    [| by rewrite Hn, entered_ns | done | done].
  unfold read_cell. cbn [cells set_sinks].
  rewrite Hc, entered_cell. cbv beta iota.
  unfold set_internal_op, set_sinks.
  destruct (is_True (normalised b r)); cbn -[entered];
    rewrite Hn, Hc, ?Hgt; done.
Qed.

(** X21: The matched call of a function that raises, with an except-message
    that only writes: what the function wrote stays, the except-message
    is written, and [rethrow], normalised when there is no
    except-message, decides.  The exception is either passed on with the
    guard left open, or swallowed with [None] returned; the after-message
    is not written, and the level stays suspended if [bubble is False]. *)
Theorem matched_call_raises (func : callable) (e : exn) (g : state → state)
    (handled : list sink_event) :
  message_events b (msg_except b) a = Some handled →
  (∀ s', func a s' = (Raise e, g s')) → only_writes g →
  is_Exception e = true →
  outer_wrapper b func a s =
    if is_True (normalised b r)
    then (Raise e,
          State true (ns (entered b r before s))
            (cells (entered b r before s))
            (sinks (g (entered b r before s)) ++ handled))
    else (Ret VNone,
          State false (ns (entered b r before s))
            (cells (entered b r before s))
            (sinks (g (entered b r before s)) ++ handled)).
Proof. apply matched_raise_run. Qed.

(** X23: An exception that is not an [Exception] (a [KeyboardInterrupt], say)
    goes through the wrapper untouched: no except-message, no regard for
    [rethrow], and the process is left as the wrapped function left it,
    guard open and level suspended if [bubble is False]. *)
Theorem base_exception_passes_through (func : callable) (e : exn)
    (g : state → state) :
  (∀ s', func a s' = (Raise e, g s')) →
  is_Exception e = false →
  outer_wrapper b func a s = (Raise e, g (entered b r before s)).
Proof.
  intros Hf He. rewrite (matched_run func).
  unfold try_except_else. munfold. rewrite Hf. cbv beta iota. by rewrite He.
Qed.

(** X24: An after-message whose formatting fails is not handled by the except
    clause: its exception reaches the caller after the wrapped function
    has run and the level has been put back, and the guard stays open. *)
Theorem after_message_failure_propagates (func : callable) (x : pyval)
    (g : state → state) (template : string) (failure : exn) :
  msg_after b = OVal (VStr template) →
  str_format template (pos a) = Raise failure →
  (∀ s', func a s' = (Ret x, g s')) → only_writes g →
  outer_wrapper b func a s =
    (Raise failure,
     State true (ns s) (cells (entered b r before s))
       (sinks (g (entered b r before s)))).
Proof.
  intros Hafter Hfail Hf Hg. rewrite (matched_run func).
  destruct (Hg (entered b r before s)) as (Hn & Hgt & Hc).
  unfold try_except_else. munfold. rewrite Hf. cbv beta iota.
  rewrite (open_guard_passes _ _ _ (entered_open_guard g Hg)).
  rewrite type_setattr_level. cbv beta iota.
  rewrite Hafter.
  rewrite (format_failure_run b template None a _ failure); [|
    cbn -[entered]; rewrite lookup_insert_ne by done;
    by rewrite Hn, entered_ns | done | done].
  unfold set_ns. cbn -[entered].
  rewrite Hn, Hc, Hgt. by rewrite entered_level_restored.
Qed.

(** X26: A wrapped function that comes back with the guard closed, as it does
    after calling [set], [add], [remove] or any decorated function, makes
    the assignment that puts the level back fail: the after-message is
    not written, the except-message is dispatched for the protection
    error, and [rethrow] decides whether the caller sees that error. *)
Theorem guarded_callee_trips_restore (func : callable) (x r2 : pyval)
    (s2 : state) (handled : list sink_event) :
  func a (entered b r before s) = (Ret x, s2) →
  internal_op_is_False s2 = true →
  ns s2 !! "_handle_msg" = Some NOrig →
  cells s2 !! rethrow b = Some r2 →
  message_events b (msg_except b) a = Some handled →
  outer_wrapper b func a s =
    if is_True r2
    then (Raise protection_error, set_sinks (sinks s2 ++ handled) s2)
    else (Ret VNone,
          set_internal_op false (set_sinks (sinks s2 ++ handled) s2)).
Proof.
  intros Hf Hclosed Hh Hc Hhandled. rewrite (matched_run func).
  unfold try_except_else. munfold. rewrite Hf. cbv beta iota.
  unfold VerbosityMeta__setattr__. munfold. rewrite Hclosed. cbv beta iota.
  change (is_Exception _) with true. cbv beta iota.
  rewrite (textual_dispatch_run b (msg_except b) _ a _ handled) by done.
  unfold read_cell. cbn [cells set_sinks]. rewrite Hc. cbv beta iota.
  by destruct (is_True r2).
Qed.

(** X27: With [bubble=False] a decorated function called from the wrapped one
    finds the level at -1: unless its own level is -1, it behaves as on
    any mismatch and none of its messages is dispatched. *)
Theorem suspension_silences_inner_decorator (inner : binding)
    (func : callable) :
  is_False (bubble b) = true →
  py_eq (verb inner) (VInt (-1)) = false →
  outer_wrapper b (outer_wrapper inner func) a s =
  outer_wrapper b (unmatched func) a s.
Proof.
  intros Hbub Hne.
  rewrite (matched_run (outer_wrapper inner func)),
    (matched_run (unmatched func)).
  unfold try_except_else. munfold.
  rewrite (unmatched_run inner func a (entered b r before s)); [done|].
  exists (NVal (VInt (-1))). split; [|done].
  unfold level_of, entered. cbn. rewrite Hbub. apply lookup_insert_eq.
Qed.

End matched_call.

Lemma plain_no_args : plain_keywords no_args.
Proof. unfold plain_keywords, no_args. cbn. repeat constructor. Qed.

Lemma only_writes_id : only_writes id.
Proof. by intros s. Qed.

Lemma matched_call_returns_witness :
  outer_wrapper start_done_binding returns_42 no_args (decorated at_INFO) =
    (Ret VNone,
     State false (ns at_INFO) [VBool false] (start_events ++ done_events)).
Proof.
  apply (matched_call_returns start_done_binding no_args (decorated at_INFO)
           (VInt 1) VNone start_events) with (x := VInt 42) (g := id);
    first [ reflexivity | apply plain_no_args | apply only_writes_id ].
Defined.

Lemma matched_call_raises_witness :
  outer_wrapper start_done_binding raises_ValueError_x no_args
      (set_cells [VBool false] at_INFO) =
    (Raise ValueError_x,
     State true (ns at_INFO) [VBool true] start_events).
Proof.
  apply (matched_call_raises start_done_binding no_args
           (set_cells [VBool false] at_INFO) (VInt 1) (VBool false)
           start_events) with (g := id) (handled := []);
    first [ reflexivity | apply plain_no_args | apply only_writes_id ].
Defined.

Lemma base_exception_passes_through_witness :
  outer_wrapper start_done_suspending interrupted no_args
      (decorated at_INFO) =
    (Raise (Exn KeyboardInterrupt None),
     State true (<["level" := NVal (VInt (-1))]> (ns at_INFO)) [VBool false]
       start_events).
Proof.
  apply (base_exception_passes_through start_done_suspending no_args
           (decorated at_INFO) (VInt 1) VNone start_events) with (g := id);
    first [ reflexivity | apply plain_no_args ].
Defined.

Lemma after_message_failure_propagates_witness :
  outer_wrapper start_field_binding returns_42 no_args (decorated at_INFO) =
    (Raise (Exn IndexError None),
     State true (ns at_INFO) [VBool false] start_events).
Proof.
  apply (after_message_failure_propagates start_field_binding no_args
           (decorated at_INFO) (VInt 1) VNone start_events)
    with (x := VInt 42) (g := id) (template := "{}");
    first [ reflexivity | apply plain_no_args | apply only_writes_id ].
Defined.

Lemma guarded_callee_trips_restore_witness :
  outer_wrapper start_done_binding sets_INFO no_args (decorated at_INFO) =
    (Ret VNone,
     State false (<["level" := NVal (VInt 1)]> (ns at_INFO)) [VBool false]
       start_events).
Proof.
  rewrite (guarded_callee_trips_restore start_done_binding no_args
             (decorated at_INFO) (VInt 1) VNone start_events)
    with (x := VNone) (r2 := VBool false) (handled := [])
         (s2 := State false (<["level" := NVal (VInt 1)]> (ns at_INFO))
                  [VBool false] start_events);
    first [ reflexivity | apply plain_no_args ].
Defined.

Lemma suspension_silences_inner_decorator_witness :
  outer_wrapper start_done_suspending
      (outer_wrapper inner_DEBUG_binding returns_42) no_args
      (set_cells [VNone; VNone] at_INFO) =
  outer_wrapper start_done_suspending (unmatched returns_42) no_args
      (set_cells [VNone; VNone] at_INFO).
Proof.
  apply (suspension_silences_inner_decorator start_done_suspending no_args
           (set_cells [VNone; VNone] at_INFO) (VInt 1) VNone start_events);
    first [ reflexivity | apply plain_no_args ].
Defined.

(** ** The decorator: what stops a matched call before the function runs *)

(** X28: A [rethrow] that is neither [None] nor a [bool] is found out only
    when the level matches: the call raises [TypeError] before any
    message, the wrapped function is not called, and the guard stays
    open. *)
Theorem invalid_rethrow_is_TypeError (b : binding) (func : callable)
    (a : call_args) (s : state) (level r : pyval) :
  level_of s = Some (NVal level) → py_eq (verb b) level = true →
  cells s !! rethrow b = Some r → valid_rethrow r = false →
  outer_wrapper b func a s =
    (Raise (Exn TypeError (rethrow_TypeError_text r)), set_internal_op true s).
Proof.
  intros Hl Heq Hc Hr. unfold level_of in Hl.
  assert (Hchk : negb (is_bool r) && negb (is_None r) = true).
  { unfold valid_rethrow in Hr. by destruct (is_bool r), (is_None r). }
  unfold outer_wrapper, wrapper, _safe_verbosity_modify, wrapper_func,
    read_cell.
  munfold. cbn. rewrite Hl. cbn. rewrite Heq. cbn. rewrite Hc. cbn.
  by rewrite Hchk.
Qed.

Lemma invalid_rethrow_is_TypeError_witness :
  outer_wrapper start_done_binding returns_42 no_args
      (set_cells [VInt 1] at_INFO) =
    (Raise (Exn TypeError
       (Some "rethrow expected to be None or bool(actual type: <class 'int'>)")),
     set_internal_op true (set_cells [VInt 1] at_INFO)).
Proof.
  apply (invalid_rethrow_is_TypeError start_done_binding returns_42 no_args
           (set_cells [VInt 1] at_INFO) (VInt 1) (VInt 1)); reflexivity.
Defined.

(** X29: A keyword argument of the decorated call named [out], [out_end],
    [flush] or [msg] clashes with the call of the dispatcher: on the
    matched path the call raises [TypeError] before anything is written
    and before the wrapped function runs. *)
Theorem colliding_keyword_is_TypeError (b : binding) (func : callable)
    (a : call_args) (s : state) (level r : pyval) (k : string) :
  level_of s = Some (NVal level) → py_eq (verb b) level = true →
  cells s !! rethrow b = Some r → valid_rethrow r = true →
  is_Some (ns s !! "_handle_msg") →
  k ∈ ["out"; "out_end"; "flush"; "msg"] → is_Some (kw a !! k) →
  outer_wrapper b func a s =
    (Raise (Exn TypeError None),
     State true (ns s)
       (if msg_is_None (msg_except b)
        then <[rethrow b := normalised b r]> (cells s) else cells s)
       (sinks s)).
Proof.
  intros Hl Heq Hc Hr [h Hh] Hk Hkw. unfold level_of in Hl.
  assert (Hex : existsb (λ k, bool_decide (is_Some (kw a !! k)))
                  ["out"; "out_end"; "flush"; "msg"] = true).
  { apply existsb_exists. exists k. split.
    - by apply list_elem_of_In.
    - by apply bool_decide_eq_true. }
  unfold outer_wrapper, wrapper, _safe_verbosity_modify, wrapper_func,
    read_cell, write_cell, call_handle_msg, normalised.
  munfold. cbn -[existsb]. rewrite Hl. cbn -[existsb].
  rewrite Heq. cbn -[existsb]. rewrite Hc. cbn -[existsb].
  rewrite (valid_rethrow_check _ Hr). cbn -[existsb].
  destruct (msg_is_None (msg_except b)); cbn -[existsb].
  all: rewrite Hh; cbn -[existsb]; by rewrite Hex.
Qed.

Lemma colliding_keyword_is_TypeError_witness :
  outer_wrapper start_done_binding returns_42
      (CallArgs [] {["flush" := VBool false]}) (decorated at_INFO) =
    (Raise (Exn TypeError None), State true (ns at_INFO) [VBool false] []).
Proof.
  apply (colliding_keyword_is_TypeError start_done_binding returns_42
           (CallArgs [] {["flush" := VBool false]}) (decorated at_INFO)
           (VInt 1) VNone "flush");
    first [ reflexivity | by eexists | set_solver ].
Defined.

(** X25: A before-message whose formatting fails (more fields than arguments,
    a lone brace) ends the matched call there: nothing is written, the
    wrapped function is not called, and the guard stays open. *)
Theorem before_message_failure_aborts (b : binding) (func : callable)
    (a : call_args) (s : state) (level r : pyval) (template : string)
    (failure : exn) :
  level_of s = Some (NVal level) → py_eq (verb b) level = true →
  cells s !! rethrow b = Some r → valid_rethrow r = true →
  ns s !! "_handle_msg" = Some NOrig → plain_keywords a →
  msg_before b = OVal (VStr template) →
  str_format template (pos a) = Raise failure →
  outer_wrapper b func a s =
    (Raise failure,
     State true (ns s)
       (if msg_is_None (msg_except b)
        then <[rethrow b := normalised b r]> (cells s) else cells s)
       (sinks s)).
Proof.
  intros Hl Heq Hc Hr Hh Hkw Hb Hf. unfold level_of in Hl.
  unfold outer_wrapper, wrapper, _safe_verbosity_modify, wrapper_func,
    read_cell, write_cell, normalised.
  set (chm := call_handle_msg).
  destruct (msg_is_None (msg_except b)).
  all: munfold; cbn.
  all: rewrite Hl; cbn; rewrite Heq; cbn; rewrite Hc; cbn.
  all: rewrite (valid_rethrow_check _ Hr); cbn.
  all: subst chm; rewrite Hb.
  all: by rewrite (format_failure_run b template None a _ failure).
Qed.

Lemma before_message_failure_aborts_witness :
  outer_wrapper field_start_binding returns_42 no_args (decorated at_INFO) =
    (Raise (Exn IndexError None), State true (ns at_INFO) [VBool false] []).
Proof.
  apply (before_message_failure_aborts field_start_binding returns_42 no_args
           (decorated at_INFO) (VInt 1) VNone "{}");
    first [ reflexivity | apply plain_no_args ].
Defined.

(** X30: The [out_end] of a binding never reaches a sink: with messages that
    only write, the decorated function is the same whatever [out_end] is.
    The line end is the default of the dispatcher, or the keyword [end]
    of the call. *)
Theorem out_end_is_ignored (b : binding) (out_end : pyval) (func : callable)
    (a : call_args) (s : state) :
  textual (msg_before b) → textual (msg_after b) → textual (msg_except b) →
  outer_wrapper (with_out_end out_end b) func a s = outer_wrapper b func a s.
Proof.
  destruct b as [vb mb ma me rt bu ou oe fl]. unfold with_out_end. cbn.
  intros Hb Ha He.
  destruct mb as [[| | |tb| |]| | |]; try done;
    destruct ma as [[| | |ta| |]| | |]; try done;
    destruct me as [[| | |te| |]| | |]; try done;
    reflexivity.
Qed.

Lemma out_end_is_ignored_witness :
  outer_wrapper (with_out_end (VStr "!") start_done_binding) returns_42
      no_args (decorated at_INFO) =
  outer_wrapper start_done_binding returns_42 no_args (decorated at_INFO).
Proof.
  by apply (out_end_is_ignored start_done_binding (VStr "!")).
Defined.

(** X22: [rethrow] is a variable of the closure, and the wrapper assigns to
    it.  A decorator made with no except-message and [rethrow] unset
    swallows the exception of the first matched call, and from the second
    matched call on passes it to the caller. *)
Theorem unset_rethrow_propagates_from_second_call (b : binding)
    (func : callable) (a : call_args) (s : state) (level : pyval)
    (before : list sink_event) (e : exn) :
  level_of s = Some (NVal level) → py_eq (verb b) level = true →
  cells s !! rethrow b = Some VNone →
  msg_except b = OVal VNone →
  is_False (bubble b) = false →
  ns s !! "_is_internal_op" = None →
  ns s !! "_handle_msg" = Some NOrig →
  plain_keywords a →
  message_events b (msg_before b) a = Some before →
  (∀ s', func a s' = (Raise e, s')) → is_Exception e = true →
  outcome (outer_wrapper b func a) s = Ret VNone ∧
  (outer_wrapper b func a;; outer_wrapper b func a) s =
    (Raise e,
     State true (ns s) (<[rethrow b := VBool true]> (cells s))
       (sinks s ++ before ++ before)).
Proof.
  intros Hl Heq Hc He Hbub Hg Hh Hkw Hb Hf Hex.
  assert (Hhandled : message_events b (msg_except b) a = Some [])
    by by rewrite He.
  assert (Hlen : (rethrow b < length (cells s))%nat)
    by by eapply lookup_lt_Some.
  pose proof (matched_raise_run b a s level VNone before Hl Heq Hc eq_refl
                Hg Hh Hkw Hb func e id [] Hhandled Hf only_writes_id Hex)
    as H1.
  unfold entered in H1. unfold normalised in H1.
  rewrite He, Hbub in H1. cbn in H1.
  rewrite app_nil_r in H1.
  split; [unfold outcome; by rewrite H1|].
  unfold mbind at 1. unfold M_bind. rewrite H1.
  set (s1 := State false _ _ _).
  assert (Hc1 : cells s1 !! rethrow b = Some (VBool false))
    by by apply list_lookup_insert_eq.
  pose proof (matched_raise_run b a s1 level (VBool false) before Hl Heq Hc1
                eq_refl Hg Hh Hkw Hb func e id [] Hhandled Hf only_writes_id
                Hex) as H2.
  unfold entered in H2. unfold normalised in H2.
  rewrite He, Hbub in H2. cbn in H2.
  rewrite H2, app_nil_r, list_insert_insert_eq, <- app_assoc. done.
Qed.

Lemma unset_rethrow_propagates_from_second_call_witness :
  outcome (outer_wrapper start_done_binding raises_ValueError_x no_args)
    (decorated at_INFO) = Ret VNone ∧
  (outer_wrapper start_done_binding raises_ValueError_x no_args;;
   outer_wrapper start_done_binding raises_ValueError_x no_args)
    (decorated at_INFO) =
    (Raise ValueError_x,
     State true (ns at_INFO) [VBool true] (start_events ++ start_events)).
Proof.
  apply (unset_rethrow_propagates_from_second_call start_done_binding
           raises_ValueError_x no_args (decorated at_INFO) (VInt 1)
           start_events ValueError_x);
    first [ reflexivity | apply plain_no_args ].
Defined.
